(** * Ledger core of the bank management API (src/main.py, src/schemas.py)

    The three money-moving request handlers, [deposit], [withdraw] and
    [transfer], are embedded as programs over the calls they make to the
    document store.  A program is run against a store either on its own
    ([run]) or interleaved with another request at the granularity
    of single store calls ([interleave]).

    Amounts and balances are Python floats in the source.  The handlers are
    embedded twice, line for line:
    - over exact numbers ([Z]) at the top level, which follows the
      comparisons and the single additions and subtractions of the code and
      is used where a property names only those;
    - over IEEE 754 binary64 numbers (module [Binary64], Rocq's primitive
      floats), which has rounding, infinities and NaN as the code does and
      is used where they decide a property.

    Further conventions:
    - an account document keeps its [balance] and [currency] as optional
      fields, because the handlers read them with [dict.get] and a default;
    - every store call may raise; the store carries the schedule of the
      calls that do ([outages]). *)

From Stdlib Require Import ZArith Ascii String Floats.
From stdpp Require Import gmap strings list fin_maps.

Local Open Scope string_scope.
Local Open Scope Z_scope.

(** ** Documents (src/schemas.py) *)

(** A document of the "account" collection, as stored.  The key [_id] is
    the key of the collection map. *)
Record Account := {
  customer_id : string;
  account_type : string;
  balance : option Z;
  currency : option string;
  nickname : option string
}.

Inductive TxType := tx_deposit | tx_withdraw | tx_transfer.

(** A validated [Transaction] model, which is what reaches the
    "transaction" collection. *)
Record Transaction := {
  account_id : string;
  tx_type : TxType;
  amount : Z;
  tx_currency : string;
  note : option string;
  to_account_id : option string;
  occurred_at : option Z
}.

(** Request bodies (src/main.py, lines 77-86). *)
Record DepositWithdrawRequest := {
  dw_amount : Z;
  dw_note : option string
}.

Record TransferRequest := {
  from_account_id : string;
  tr_to_account_id : string;
  tr_amount : Z;
  tr_note : option string
}.

(** ** Exceptions *)

(** Exceptions other than [HTTPException] that the handlers can meet. *)
Inductive PyError :=
| InvalidId (s : string)     (* bson: the string is not an ObjectId *)
| ValidationError            (* pydantic: a field constraint failed *)
| StoreError.                (* the store call raised *)

Inductive Detail :=
| Text (s : string)
| StrOf (e : PyError).       (* str(e) *)

Inductive Exn :=
| HTTPException (status_code : Z) (detail : Detail)
| Error (e : PyError).

Inductive Result (A : Type) :=
| Returned (a : A)
| Raised (e : Exn).
Arguments Returned {A} a.
Arguments Raised {A} e.

(** The failure kinds of the ledger core, as the handlers signal them. *)
Definition NotFound_account : Exn := HTTPException 404 (Text "Account not found").
Definition NotFound_transfer : Exn :=
  HTTPException 404 (Text "Source or destination account not found").
Definition InsufficientFunds : Exn := HTTPException 400 (Text "Insufficient funds").
Definition CurrencyMismatch : Exn := HTTPException 400 (Text "Currency mismatch").
Definition InternalError (e : PyError) : Exn := HTTPException 500 (StrOf e).

(** An InvalidArgument failure is a client error: status 400 that is neither
    of the two 400 responses above.  (Section 6 of the specification maps
    InvalidArgument to 400 and store or transfer failures to 500.) *)
Definition is_InvalidArgument (e : Exn) : Prop :=
  exists d, e = HTTPException 400 d /\ e <> InsufficientFunds /\ e <> CurrencyMismatch.

(** ** ObjectId (bson) *)

Definition is_hex_digit (c : ascii) : bool :=
  let n := nat_of_ascii c in
  ((48 <=? n) && (n <=? 57) || (97 <=? n) && (n <=? 102) || (65 <=? n) && (n <=? 70))%nat.

Definition lower_hex (c : ascii) : ascii :=
  let n := nat_of_ascii c in
  if ((65 <=? n) && (n <=? 70))%nat then ascii_of_nat (n + 32) else c.

(** ASCII whitespace as [bytes.fromhex] skips it: space and the control
    characters 9 to 13. *)
Definition is_space (c : ascii) : bool :=
  let n := nat_of_ascii c in
  ((n =? 32) || (9 <=? n) && (n <=? 13))%nat.

(** [bytes.fromhex(s)], given as the lower-case hexadecimal text of the
    bytes read: whitespace is skipped before each byte, and a byte is two
    adjacent hexadecimal digits of either case; anything else raises. *)
Fixpoint fromhex (s : string) : option string :=
  match s with
  | EmptyString => Some EmptyString
  | String c s' =>
    if is_space c then fromhex s'
    else
      match s' with
      | String d s'' =>
        if is_hex_digit c && is_hex_digit d
        then (fun t => String (lower_hex c) (String (lower_hex d) t)) <$> fromhex s''
        else None
      | EmptyString => None
      end
  end.

(** [ObjectId(s)] for a string (bson): a string of 24 characters that
    [bytes.fromhex] accepts denotes an id, anything else raises [InvalidId].
    An id is kept as the lower-case hexadecimal text of its bytes, which is
    what [str(oid)] gives; for 24 hexadecimal digits that is the string
    itself in lower case. *)
Definition ObjectId (s : string) : option string :=
  if (String.length s =? 24)%nat then fromhex s else None.

(** ** Programs over the document store *)

(** What a store call gives back: its value, or it raised. *)
Inductive Reply (R : Type) :=
| Done (r : R)
| Failed.
Arguments Done {R} r.
Arguments Failed {R}.

(** A document as [find_one] returns it: the stored fields with [_id]. *)
Record Found := { doc_id : string; doc : Account }.

Inductive Prog (A : Type) : Type :=
| Return (a : A)
| Raise (e : Exn)
| FindOne (oid : string) (k : Reply (option Found) -> Prog A)
| UpdateOne (oid : string) (new_balance : Z) (k : Reply unit -> Prog A)
| CreateDocument (tx : Transaction) (k : Reply nat -> Prog A).
Arguments Return {A} a.
Arguments Raise {A} e.
Arguments FindOne {A} oid k.
Arguments UpdateOne {A} oid new_balance k.
Arguments CreateDocument {A} tx k.

Fixpoint bind {A B : Type} (p : Prog A) (f : A -> Prog B) : Prog B :=
  match p with
  | Return a => f a
  | Raise e => Raise e
  | FindOne oid k => FindOne oid (fun r => bind (k r) f)
  | UpdateOne oid b k => UpdateOne oid b (fun r => bind (k r) f)
  | CreateDocument tx k => CreateDocument tx (fun r => bind (k r) f)
  end.

#[global] Instance Prog_ret : MRet Prog := @Return.
#[global] Instance Prog_bind : MBind Prog := fun A B f p => bind p f.

(** [try: p except Exception as e: h e]. *)
Fixpoint try_except {A : Type} (p : Prog A) (h : Exn -> Prog A) : Prog A :=
  match p with
  | Return a => Return a
  | Raise e => h e
  | FindOne oid k => FindOne oid (fun r => try_except (k r) h)
  | UpdateOne oid b k => UpdateOne oid b (fun r => try_except (k r) h)
  | CreateDocument tx k => CreateDocument tx (fun r => try_except (k r) h)
  end.

Definition reply {R : Type} (r : Reply R) : Prog R :=
  match r with
  | Done v => Return v
  | Failed => Raise (Error StoreError)
  end.

(** [db["account"].find_one({"_id": oid})] *)
Definition find_one (oid : string) : Prog (option Found) := FindOne oid reply.

(** [db["account"].update_one({"_id": oid}, {"$set": {"balance": b}})] *)
Definition update_one (oid : string) (b : Z) : Prog unit := UpdateOne oid b reply.

(** [create_document("transaction", tx)] *)
Definition create_document (tx : Transaction) : Prog nat := CreateDocument tx reply.

(** [ObjectId(s)] inside a handler. *)
Definition parse_id (s : string) : Prog string :=
  match ObjectId s with
  | Some oid => Return oid
  | None => Raise (Error (InvalidId s))
  end.

(** [Transaction(...)]: the model is built only when [amount > 0]
    (src/schemas.py line 48, [Field(..., gt=0)]). *)
Definition new_Transaction (account_id : string) (tx_type : TxType) (amount : Z)
    (currency : string) (note : option string) (to_account_id : option string)
  : Prog Transaction :=
  if 0 <? amount
  then Return {| account_id := account_id; tx_type := tx_type; amount := amount;
                 tx_currency := currency; note := note;
                 to_account_id := to_account_id; occurred_at := None |}
  else Raise (Error ValidationError).

(** [float(acc.get("balance", 0))] and [acc.get("currency", "USD")]. *)
Definition get_balance (acc : Found) : Z := default 0 (balance (doc acc)).
Definition get_currency (acc : Found) : string := default "USD" (currency (doc acc)).

(** The [except Exception as e] clause shared by the handlers. *)
Definition on_exception {A : Type} (e : Exn) : Prog A :=
  match e with
  | HTTPException _ _ => Raise e
  | Error x => Raise (InternalError x)
  end.

(** ** The handlers (src/main.py, lines 135-221) *)

Definition deposit (account_id : string) (payload : DepositWithdrawRequest) : Prog Z :=
  try_except
    (oid ← parse_id account_id;
     found ← find_one oid;
     match found with
     | None => Raise NotFound_account
     | Some acc =>
       let new_balance := get_balance acc + dw_amount payload in
       _ ← update_one (doc_id acc) new_balance;
       tx ← new_Transaction (doc_id acc) tx_deposit (dw_amount payload)
              (get_currency acc) (dw_note payload) None;
       _ ← create_document tx;
       Return new_balance
     end)
    on_exception.

Definition withdraw (account_id : string) (payload : DepositWithdrawRequest) : Prog Z :=
  try_except
    (oid ← parse_id account_id;
     found ← find_one oid;
     match found with
     | None => Raise NotFound_account
     | Some acc =>
       let current := get_balance acc in
       if current <? dw_amount payload then Raise InsufficientFunds
       else
         let new_balance := current - dw_amount payload in
         _ ← update_one (doc_id acc) new_balance;
         tx ← new_Transaction (doc_id acc) tx_withdraw (dw_amount payload)
                (get_currency acc) (dw_note payload) None;
         _ ← create_document tx;
         Return new_balance
     end)
    on_exception.

Definition transfer_note (from_id : string) : string := String.append "Transfer from " from_id.

Definition transfer (payload : TransferRequest) : Prog unit :=
  try_except
    (from_oid ← parse_id (from_account_id payload);
     from_found ← find_one from_oid;
     to_oid ← parse_id (tr_to_account_id payload);
     to_found ← find_one to_oid;
     match from_found, to_found with
     | Some from_acc, Some to_acc =>
       if negb (bool_decide (currency (doc from_acc) = currency (doc to_acc)))
       then Raise CurrencyMismatch
       else
         let current := get_balance from_acc in
         if current <? tr_amount payload then Raise InsufficientFunds
         else
           _ ← update_one (doc_id from_acc) (current - tr_amount payload);
           _ ← update_one (doc_id to_acc) (get_balance to_acc + tr_amount payload);
           tx_out ← new_Transaction (doc_id from_acc) tx_transfer (tr_amount payload)
                      (get_currency from_acc) (tr_note payload) (Some (doc_id to_acc));
           _ ← create_document tx_out;
           tx_in ← new_Transaction (doc_id to_acc) tx_deposit (tr_amount payload)
                     (get_currency to_acc) (Some (transfer_note (doc_id from_acc))) None;
           _ ← create_document tx_in;
           Return tt
     | _, _ => Raise NotFound_transfer
     end)
    on_exception.

(** ** The document store *)

(** Modelled from the spec: the module [database] ([db], [create_document])
    is not among the sources.  Per sections 2 and 3 of the specification the
    store keeps one document per account identifier, reads and writes a
    single document atomically, and the ledger is append-only in insertion
    order.  [outages] schedules the store calls that raise: each call takes
    the head of the list, and raises without any effect when it is [true]. *)
Record Db := {
  db_account : gmap string Account;
  db_transaction : list Transaction;
  outages : list bool
}.

Definition set_balance (b : Z) (a : Account) : Account :=
  {| customer_id := customer_id a; account_type := account_type a;
     balance := Some b; currency := currency a; nickname := nickname a |}.

Definition next_call (db : Db) : bool * Db :=
  match outages db with
  | [] => (false, db)
  | f :: fs => (f, {| db_account := db_account db;
                      db_transaction := db_transaction db; outages := fs |})
  end.

Definition lookup_account (oid : string) (db : Db) : option Found :=
  (fun a => {| doc_id := oid; doc := a |}) <$> db_account db !! oid.

(** [$set] on the matching document; no document matched, nothing changes. *)
Definition write_balance (oid : string) (b : Z) (db : Db) : Db :=
  {| db_account := alter (set_balance b) oid (db_account db);
     db_transaction := db_transaction db; outages := outages db |}.

Definition append_transaction (tx : Transaction) (db : Db) : Db :=
  {| db_account := db_account db;
     db_transaction := (db_transaction db ++ [tx])%list; outages := outages db |}.

(** One store call of a program; a finished program stays as it is. *)
Definition step {A : Type} (p : Prog A) (db : Db) : Prog A * Db :=
  match p with
  | Return _ | Raise _ => (p, db)
  | FindOne oid k =>
    let (f, db') := next_call db in
    if f then (k Failed, db') else (k (Done (lookup_account oid db')), db')
  | UpdateOne oid b k =>
    let (f, db') := next_call db in
    if f then (k Failed, db') else (k (Done tt), write_balance oid b db')
  | CreateDocument tx k =>
    let (f, db') := next_call db in
    if f then (k Failed, db')
    else (k (Done (length (db_transaction db'))), append_transaction tx db')
  end.

Definition finished {A : Type} (p : Prog A) : bool :=
  match p with
  | Return _ | Raise _ => true
  | _ => false
  end.

(** A request served from start to end, with nothing running in between. *)
Fixpoint run {A : Type} (p : Prog A) (db : Db) : Db * Result A :=
  match p with
  | Return a => (db, Returned a)
  | Raise e => (db, Raised e)
  | FindOne oid k =>
    let (f, db') := next_call db in
    if f then run (k Failed) db' else run (k (Done (lookup_account oid db'))) db'
  | UpdateOne oid b k =>
    let (f, db') := next_call db in
    if f then run (k Failed) db' else run (k (Done tt)) (write_balance oid b db')
  | CreateDocument tx k =>
    let (f, db') := next_call db in
    if f then run (k Failed) db'
    else run (k (Done (length (db_transaction db')))) (append_transaction tx db')
  end.

(** ** Observations on a store *)

(** No store call raises. *)
Definition quiet (db : Db) : Prop := outages db = [].

(** The balance of an account as the handlers read it. *)
Definition balance_at (db : Db) (oid : string) : option Z :=
  get_balance <$> lookup_account oid db.

(** The ledger entries the handlers build. *)
Definition deposit_entry (oid : string) (a : Account) (payload : DepositWithdrawRequest)
  : Transaction :=
  {| account_id := oid; tx_type := tx_deposit; amount := dw_amount payload;
     tx_currency := default "USD" (currency a); note := dw_note payload;
     to_account_id := None; occurred_at := None |}.

Definition withdraw_entry (oid : string) (a : Account) (payload : DepositWithdrawRequest)
  : Transaction :=
  {| account_id := oid; tx_type := tx_withdraw; amount := dw_amount payload;
     tx_currency := default "USD" (currency a); note := dw_note payload;
     to_account_id := None; occurred_at := None |}.

Definition transfer_out_entry (from_oid to_oid : string) (a : Account)
    (payload : TransferRequest) : Transaction :=
  {| account_id := from_oid; tx_type := tx_transfer; amount := tr_amount payload;
     tx_currency := default "USD" (currency a); note := tr_note payload;
     to_account_id := Some to_oid; occurred_at := None |}.

Definition transfer_in_entry (from_oid to_oid : string) (b : Account)
    (payload : TransferRequest) : Transaction :=
  {| account_id := to_oid; tx_type := tx_deposit; amount := tr_amount payload;
     tx_currency := default "USD" (currency b);
     note := Some (transfer_note from_oid);
     to_account_id := None; occurred_at := None |}.

(** ** What a transfer leaves behind *)




(** ** Sequences of requests *)

Inductive Request :=
| Deposit (id : string) (payload : DepositWithdrawRequest)
| Withdraw (id : string) (payload : DepositWithdrawRequest)
| Transfer (payload : TransferRequest).

(** The store after a request, and the stores it goes through. *)
Definition serve (r : Request) (db : Db) : Db :=
  match r with
  | Deposit s p => fst (run (deposit s p) db)
  | Withdraw s p => fst (run (withdraw s p) db)
  | Transfer p => fst (run (transfer p) db)
  end.

Fixpoint serve_all (rs : list Request) (db : Db) : Db :=
  match rs with
  | [] => db
  | r :: rs' => serve_all rs' (serve r db)
  end.

Definition nonneg_accounts (m : gmap string Account) : Prop :=
  map_Forall (fun _ a => 0 <= default 0 (balance a)) m.

Definition nonnegative (db : Db) : Prop := nonneg_accounts (db_account db).

(** ** Two requests served concurrently *)

(** The store calls of two requests are served in the order chosen by the
    schedule: [true] serves the next call of the first request, [false] of
    the second; a request that has ended yields its turn.  Once the schedule
    is used up the first request runs to its end, then the second. *)
Fixpoint interleave {A B : Type} (sched : list bool) (p1 : Prog A) (p2 : Prog B)
    (db : Db) : Db * (Result A * Result B) :=
  match sched with
  | [] =>
    let (db1, r1) := run p1 db in
    let (db2, r2) := run p2 db1 in
    (db2, (r1, r2))
  | first :: sched' =>
    if (if first then negb (finished p1) else finished p2)
    then let (p1', db') := step p1 db in interleave sched' p1' p2 db'
    else let (p2', db') := step p2 db in interleave sched' p1 p2' db'
  end.

(** Exactly one of two withdrawals of 60 from 100 succeeds. *)
Definition exactly_one_succeeds (r1 r2 : Result Z) : Prop :=
  (r1 = Returned 40 /\ r2 = Raised InsufficientFunds) \/
  (r1 = Raised InsufficientFunds /\ r2 = Returned 40).

Definition withdraw60 : DepositWithdrawRequest := {| dw_amount := 60; dw_note := None |}.

(** ** Responses *)

(** The HTTP status a handler's outcome becomes: 200 for a returned value,
    the status of an [HTTPException]; any other exception would leave the
    handler uncaught and has no status here. *)
Definition status_code {A : Type} (r : Result A) : option Z :=
  match r with
  | Returned _ => Some 200
  | Raised (HTTPException st _) => Some st
  | Raised (Error _) => None
  end.

Definition respond (r : Request) (db : Db) : option Z :=
  match r with
  | Deposit s p => status_code (snd (run (deposit s p) db))
  | Withdraw s p => status_code (snd (run (withdraw s p) db))
  | Transfer p => status_code (snd (run (transfer p) db))
  end.

(** The accounts a request names. *)
Definition addresses (r : Request) (j : string) : Prop :=
  match r with
  | Deposit s _ | Withdraw s _ => ObjectId s = Some j
  | Transfer p =>
    ObjectId (from_account_id p) = Some j \/ ObjectId (tr_to_account_id p) = Some j
  end.

(** A request one of whose account ids is not the text of an [ObjectId]. *)
Definition malformed (r : Request) : Prop :=
  match r with
  | Deposit s _ | Withdraw s _ => ObjectId s = None
  | Transfer p =>
    ObjectId (from_account_id p) = None \/ ObjectId (tr_to_account_id p) = None
  end.

(** ** Documents as dictionaries: [to_str_id] (src/main.py, lines 25-31) *)

Inductive Value :=
| VNone
| VBool (b : bool)
| VNum (z : Z)
| VStr (s : string)
| VObjectId (oid : string).

(** [to_str_id(doc)]: an empty document is returned as it is; otherwise a
    copy is returned in which an [_id] that is an [ObjectId] is replaced by
    its text. *)
Definition to_str_id (doc : gmap string Value) : gmap string Value :=
  if bool_decide (doc = ∅) then doc
  else
    match doc !! "_id" with
    | Some (VObjectId oid) => <["_id" := VStr oid]> doc
    | _ => doc
    end.

(** ** Accounts: the schema and [create_account] *)

(** The [Account] model of src/schemas.py built from the fields of a
    request: [account_type] is one of two literals, [balance] defaults to 0
    and must be [>= 0], [currency] defaults to USD and is one of six codes. *)
Definition account_types : list string := ["checking"; "savings"].
Definition currencies : list string := ["USD"; "EUR"; "GBP"; "INR"; "JPY"; "AUD"].

Definition Account_model (customer_id account_type : string) (balance : option Z)
    (currency nickname : option string) : option Account :=
  if bool_decide (account_type ∈ account_types)
     && (0 <=? default 0 balance)
     && bool_decide (default "USD" currency ∈ currencies)
  then Some {| customer_id := customer_id; account_type := account_type;
               balance := Some (default 0 balance);
               currency := Some (default "USD" currency); nickname := nickname |}
  else None.

Record Customer := {
  full_name : string;
  email : string;
  phone : option string;
  address : option string;
  is_active : bool
}.

(** The store with its "customer" collection. *)
Record Bank := {
  bank_customer : gmap string Customer;
  bank_db : Db
}.

Definition with_db (bank : Bank) (db : Db) : Bank :=
  {| bank_customer := bank_customer bank; bank_db := db |}.

(** Modelled from the spec: [create_document("account", payload)] of the
    module [database], which is not among the sources, stores the payload as
    a new document under the identifier the store assigns ([new_id]) and
    returns that identifier as text. *)
Definition insert_account (new_id : string) (payload : Account) (db : Db) : Db :=
  {| db_account := <[new_id := payload]> (db_account db);
     db_transaction := db_transaction db; outages := outages db |}.

Definition CustomerNotFound : Exn := HTTPException 404 (Text "Customer not found").

(** [create_account] (src/main.py, lines 109-121), on a payload that passed
    the [Account] model. *)
Definition create_account (payload : Account) (new_id : string) (bank : Bank)
  : Bank * Result string :=
  match ObjectId (customer_id payload) with
  | None => (bank, Raised (InternalError (InvalidId (customer_id payload))))
  | Some cid =>
    let (f1, db1) := next_call (bank_db bank) in
    if f1 then (with_db bank db1, Raised (InternalError StoreError))
    else
      match bank_customer bank !! cid with
      | None => (with_db bank db1, Raised CustomerNotFound)
      | Some _ =>
        let (f2, db2) := next_call db1 in
        if f2 then (with_db bank db2, Raised (InternalError StoreError))
        else (with_db bank (insert_account new_id payload db2), Returned new_id)
      end
  end.

(** ** The same handlers over binary64 numbers

    Amounts and balances are Python floats, that is IEEE 754 binary64
    numbers.  The module below is the embedding above with [float] in place
    of [Z], line for line: the same documents, programs, handlers and store.
    It is the one to use where rounding, infinities or NaN decide a
    property.  The exceptions, replies, results and [ObjectId] do not depend
    on the numbers and are shared. *)

Module Binary64.

Record Account := {
  customer_id : string;
  account_type : string;
  balance : option float;
  currency : option string;
  nickname : option string
}.

Record Transaction := {
  account_id : string;
  tx_type : TxType;
  amount : float;
  tx_currency : string;
  note : option string;
  to_account_id : option string;
  occurred_at : option Z
}.

Record DepositWithdrawRequest := {
  dw_amount : float;
  dw_note : option string
}.

Record TransferRequest := {
  from_account_id : string;
  tr_to_account_id : string;
  tr_amount : float;
  tr_note : option string
}.

Record Found := { doc_id : string; doc : Account }.

Inductive Prog (A : Type) : Type :=
| Return (a : A)
| Raise (e : Exn)
| FindOne (oid : string) (k : Reply (option Found) -> Prog A)
| UpdateOne (oid : string) (new_balance : float) (k : Reply unit -> Prog A)
| CreateDocument (tx : Transaction) (k : Reply nat -> Prog A).
Arguments Return {A} a.
Arguments Raise {A} e.
Arguments FindOne {A} oid k.
Arguments UpdateOne {A} oid new_balance k.
Arguments CreateDocument {A} tx k.

Fixpoint bind {A B : Type} (p : Prog A) (f : A -> Prog B) : Prog B :=
  match p with
  | Return a => f a
  | Raise e => Raise e
  | FindOne oid k => FindOne oid (fun r => bind (k r) f)
  | UpdateOne oid b k => UpdateOne oid b (fun r => bind (k r) f)
  | CreateDocument tx k => CreateDocument tx (fun r => bind (k r) f)
  end.

#[global] Instance Prog_ret : MRet Prog := @Return.
#[global] Instance Prog_bind : MBind Prog := fun A B f p => bind p f.

Fixpoint try_except {A : Type} (p : Prog A) (h : Exn -> Prog A) : Prog A :=
  match p with
  | Return a => Return a
  | Raise e => h e
  | FindOne oid k => FindOne oid (fun r => try_except (k r) h)
  | UpdateOne oid b k => UpdateOne oid b (fun r => try_except (k r) h)
  | CreateDocument tx k => CreateDocument tx (fun r => try_except (k r) h)
  end.

Definition reply {R : Type} (r : Reply R) : Prog R :=
  match r with
  | Done v => Return v
  | Failed => Raise (Error StoreError)
  end.

Definition find_one (oid : string) : Prog (option Found) := FindOne oid reply.
Definition update_one (oid : string) (b : float) : Prog unit := UpdateOne oid b reply.
Definition create_document (tx : Transaction) : Prog nat := CreateDocument tx reply.

Definition parse_id (s : string) : Prog string :=
  match ObjectId s with
  | Some oid => Return oid
  | None => Raise (Error (InvalidId s))
  end.

(** [Transaction(...)]: built only when [amount > 0] holds as a comparison
    of floats, which is false of NaN and true of [+inf]. *)
Definition new_Transaction (account_id : string) (tx_type : TxType) (amount : float)
    (currency : string) (note : option string) (to_account_id : option string)
  : Prog Transaction :=
  if PrimFloat.ltb 0 amount
  then Return {| account_id := account_id; tx_type := tx_type; amount := amount;
                 tx_currency := currency; note := note;
                 to_account_id := to_account_id; occurred_at := None |}
  else Raise (Error ValidationError).

(** [float(acc.get("balance", 0))] and [acc.get("currency", "USD")]. *)
Definition get_balance (acc : Found) : float := default 0%float (balance (doc acc)).
Definition get_currency (acc : Found) : string := default "USD" (currency (doc acc)).

Definition on_exception {A : Type} (e : Exn) : Prog A :=
  match e with
  | HTTPException _ _ => Raise e
  | Error x => Raise (InternalError x)
  end.

(** [deposit] (src/main.py, lines 135-155). *)
Definition deposit (account_id : string) (payload : DepositWithdrawRequest)
  : Prog float :=
  try_except
    (oid ← parse_id account_id;
     found ← find_one oid;
     match found with
     | None => Raise NotFound_account
     | Some acc =>
       let new_balance := PrimFloat.add (get_balance acc) (dw_amount payload) in
       _ ← update_one (doc_id acc) new_balance;
       tx ← new_Transaction (doc_id acc) tx_deposit (dw_amount payload)
              (get_currency acc) (dw_note payload) None;
       _ ← create_document tx;
       Return new_balance
     end)
    on_exception.

(** [withdraw] (src/main.py, lines 158-181); [payload.amount > current] is
    [current < payload.amount]. *)
Definition withdraw (account_id : string) (payload : DepositWithdrawRequest)
  : Prog float :=
  try_except
    (oid ← parse_id account_id;
     found ← find_one oid;
     match found with
     | None => Raise NotFound_account
     | Some acc =>
       let current := get_balance acc in
       if PrimFloat.ltb current (dw_amount payload) then Raise InsufficientFunds
       else
         let new_balance := PrimFloat.sub current (dw_amount payload) in
         _ ← update_one (doc_id acc) new_balance;
         tx ← new_Transaction (doc_id acc) tx_withdraw (dw_amount payload)
                (get_currency acc) (dw_note payload) None;
         _ ← create_document tx;
         Return new_balance
     end)
    on_exception.

(** [transfer] (src/main.py, lines 184-221). *)
Definition transfer (payload : TransferRequest) : Prog unit :=
  try_except
    (from_oid ← parse_id (from_account_id payload);
     from_found ← find_one from_oid;
     to_oid ← parse_id (tr_to_account_id payload);
     to_found ← find_one to_oid;
     match from_found, to_found with
     | Some from_acc, Some to_acc =>
       if negb (bool_decide (currency (doc from_acc) = currency (doc to_acc)))
       then Raise CurrencyMismatch
       else
         let current := get_balance from_acc in
         if PrimFloat.ltb current (tr_amount payload) then Raise InsufficientFunds
         else
           _ ← update_one (doc_id from_acc) (PrimFloat.sub current (tr_amount payload));
           _ ← update_one (doc_id to_acc)
                 (PrimFloat.add (get_balance to_acc) (tr_amount payload));
           tx_out ← new_Transaction (doc_id from_acc) tx_transfer (tr_amount payload)
                      (get_currency from_acc) (tr_note payload) (Some (doc_id to_acc));
           _ ← create_document tx_out;
           tx_in ← new_Transaction (doc_id to_acc) tx_deposit (tr_amount payload)
                     (get_currency to_acc) (Some (transfer_note (doc_id from_acc))) None;
           _ ← create_document tx_in;
           Return tt
     | _, _ => Raise NotFound_transfer
     end)
    on_exception.

(** Modelled from the spec: the store of the module [database], which is
    not among the sources; as [Db] above, with binary64 balances. *)
Record Db := {
  db_account : gmap string Account;
  db_transaction : list Transaction;
  outages : list bool
}.

Definition set_balance (b : float) (a : Account) : Account :=
  {| customer_id := customer_id a; account_type := account_type a;
     balance := Some b; currency := currency a; nickname := nickname a |}.

Definition next_call (db : Db) : bool * Db :=
  match outages db with
  | [] => (false, db)
  | f :: fs => (f, {| db_account := db_account db;
                      db_transaction := db_transaction db; outages := fs |})
  end.

Definition lookup_account (oid : string) (db : Db) : option Found :=
  (fun a => {| doc_id := oid; doc := a |}) <$> db_account db !! oid.

Definition write_balance (oid : string) (b : float) (db : Db) : Db :=
  {| db_account := alter (set_balance b) oid (db_account db);
     db_transaction := db_transaction db; outages := outages db |}.

Definition append_transaction (tx : Transaction) (db : Db) : Db :=
  {| db_account := db_account db;
     db_transaction := (db_transaction db ++ [tx])%list; outages := outages db |}.

Fixpoint run {A : Type} (p : Prog A) (db : Db) : Db * Result A :=
  match p with
  | Return a => (db, Returned a)
  | Raise e => (db, Raised e)
  | FindOne oid k =>
    let (f, db') := next_call db in
    if f then run (k Failed) db' else run (k (Done (lookup_account oid db'))) db'
  | UpdateOne oid b k =>
    let (f, db') := next_call db in
    if f then run (k Failed) db' else run (k (Done tt)) (write_balance oid b db')
  | CreateDocument tx k =>
    let (f, db') := next_call db in
    if f then run (k Failed) db'
    else run (k (Done (length (db_transaction db')))) (append_transaction tx db')
  end.

(** The stores a request goes through: one per store call, in order. *)
Fixpoint trace {A : Type} (p : Prog A) (db : Db) : list Db :=
  match p with
  | Return _ | Raise _ => []
  | FindOne oid k =>
    let (f, db') := next_call db in
    db' :: (if f then trace (k Failed) db' else trace (k (Done (lookup_account oid db'))) db')
  | UpdateOne oid b k =>
    let (f, db') := next_call db in
    if f then db' :: trace (k Failed) db'
    else write_balance oid b db' :: trace (k (Done tt)) (write_balance oid b db')
  | CreateDocument tx k =>
    let (f, db') := next_call db in
    if f then db' :: trace (k Failed) db'
    else append_transaction tx db'
           :: trace (k (Done (length (db_transaction db')))) (append_transaction tx db')
  end.

Definition quiet (db : Db) : Prop := outages db = [].

Definition balance_at (db : Db) (oid : string) : option float :=
  get_balance <$> lookup_account oid db.

Definition deposit_entry (oid : string) (a : Account) (payload : DepositWithdrawRequest)
  : Transaction :=
  {| account_id := oid; tx_type := tx_deposit; amount := dw_amount payload;
     tx_currency := default "USD" (currency a); note := dw_note payload;
     to_account_id := None; occurred_at := None |}.

Definition withdraw_entry (oid : string) (a : Account) (payload : DepositWithdrawRequest)
  : Transaction :=
  {| account_id := oid; tx_type := tx_withdraw; amount := dw_amount payload;
     tx_currency := default "USD" (currency a); note := dw_note payload;
     to_account_id := None; occurred_at := None |}.

Definition transfer_out_entry (from_oid to_oid : string) (a : Account)
    (payload : TransferRequest) : Transaction :=
  {| account_id := from_oid; tx_type := tx_transfer; amount := tr_amount payload;
     tx_currency := default "USD" (currency a); note := tr_note payload;
     to_account_id := Some to_oid; occurred_at := None |}.

Definition transfer_in_entry (from_oid to_oid : string) (b : Account)
    (payload : TransferRequest) : Transaction :=
  {| account_id := to_oid; tx_type := tx_deposit; amount := tr_amount payload;
     tx_currency := default "USD" (currency b);
     note := Some (transfer_note from_oid);
     to_account_id := None; occurred_at := None |}.

Inductive Request :=
| Deposit (id : string) (payload : DepositWithdrawRequest)
| Withdraw (id : string) (payload : DepositWithdrawRequest)
| Transfer (payload : TransferRequest).

Definition request_amount (r : Request) : float :=
  match r with
  | Deposit _ p | Withdraw _ p => dw_amount p
  | Transfer p => tr_amount p
  end.

Definition serve (r : Request) (db : Db) : Db :=
  match r with
  | Deposit s p => fst (run (deposit s p) db)
  | Withdraw s p => fst (run (withdraw s p) db)
  | Transfer p => fst (run (transfer p) db)
  end.

Definition serve_trace (r : Request) (db : Db) : list Db :=
  match r with
  | Deposit s p => trace (deposit s p) db
  | Withdraw s p => trace (withdraw s p) db
  | Transfer p => trace (transfer p) db
  end.

Fixpoint serve_all (rs : list Request) (db : Db) : Db :=
  match rs with
  | [] => db
  | r :: rs' => serve_all rs' (serve r db)
  end.

(** Every store reached while the requests are served in turn: after each
    single store call of each request. *)
Fixpoint history (rs : list Request) (db : Db) : list Db :=
  match rs with
  | [] => []
  | r :: rs' => (serve_trace r db ++ history rs' (serve r db))%list
  end.

(** [x >= 0] as the comparison of floats; it is false of NaN. *)
Definition is_nonneg (x : float) : Prop := PrimFloat.leb 0 x = true.

(** [0 < x < +inf]: a strictly positive, finite amount. *)
Definition is_positive_finite (x : float) : Prop :=
  PrimFloat.ltb 0 x = true /\ PrimFloat.ltb x infinity = true.

Definition nonneg_accounts (m : gmap string Account) : Prop :=
  map_Forall (fun _ a => is_nonneg (default 0%float (balance a))) m.

Definition nonnegative (db : Db) : Prop := nonneg_accounts (db_account db).

Definition sample_account (b : float) (c : string) : Account :=
  {| customer_id := "5f1d7f3e8b0c4a2d9e6f1a2b"; account_type := "checking";
     balance := Some b; currency := Some c; nickname := None |}.

Definition sample_db (a b : Account) (faults : list bool) : Db :=
  {| db_account := <["aaaaaaaaaaaaaaaaaaaaaaaa" := a]> (<["bbbbbbbbbbbbbbbbbbbbbbbb" := b]> ∅);
     db_transaction := []; outages := faults |}.

End Binary64.

(** ** Binary64 numbers

    The sign classes of a number through its specification ([Prim2SF]),
    used to read the comparisons with zero. *)

Definition sf_nonneg (f : spec_float) : bool :=
  match f with
  | S754_zero _ | S754_infinity false | S754_finite false _ _ => true
  | _ => false
  end.

Definition sf_positive (f : spec_float) : bool :=
  match f with
  | S754_infinity false | S754_finite false _ _ => true
  | _ => false
  end.

(** ** Sample data *)

Definition idA : string := "aaaaaaaaaaaaaaaaaaaaaaaa".
Definition idB : string := "bbbbbbbbbbbbbbbbbbbbbbbb".

Definition sample_account (b : Z) (c : string) : Account :=
  {| customer_id := "5f1d7f3e8b0c4a2d9e6f1a2b"; account_type := "checking";
     balance := Some b; currency := Some c; nickname := None |}.

Definition sample_db (a b : Account) (faults : list bool) : Db :=
  {| db_account := <[idA := a]> (<[idB := b]> ∅);
     db_transaction := []; outages := faults |}.

(** ** ObjectId *)

Example ObjectId_lower : ObjectId idA = Some idA.
Proof. reflexivity. Qed.

Example ObjectId_upper : ObjectId "AAAAAAAAAAAAAAAAAAAAAAAA" = Some idA.
Proof. reflexivity. Qed.

Example ObjectId_short : ObjectId "abc" = None.
Proof. reflexivity. Qed.

Example ObjectId_not_hex : ObjectId "zzzzzzzzzzzzzzzzzzzzzzzz" = None.
Proof. reflexivity. Qed.

Example ObjectId_whitespace :
  ObjectId "aaaaaaaaaaaaaaaaaaaaaa  " = Some "aaaaaaaaaaaaaaaaaaaaaa".
Proof. reflexivity. Qed.

Example ObjectId_split_byte : ObjectId "a aaaaaaaaaaaaaaaaaaaaaa" = None.
Proof. reflexivity. Qed.

(** ** Store lemmas *)


Lemma balance_at_write_eq db oid a b :
  db_account db !! oid = Some a -> balance_at (write_balance oid b db) oid = Some b.
Proof.
  intros H. unfold balance_at, lookup_account, write_balance; simpl.
  by rewrite lookup_alter_eq, H.
Qed.





(** [run] serves the store calls that [step] serves one at a time. *)
Lemma run_step {A : Type} (p : Prog A) (db : Db) :
  run p db = run (fst (step p db)) (snd (step p db)).
Proof.
  destruct p; simpl; try reflexivity;
    destruct (next_call db) as [f db0]; destruct f; reflexivity.
Qed.

(** ** Runs on a quiet store *)

Lemma run_deposit_quiet s payload db oid a :
  ObjectId s = Some oid ->
  db_account db !! oid = Some a ->
  quiet db ->
  run (deposit s payload) db =
    let new_balance := default 0 (balance a) + dw_amount payload in
    if 0 <? dw_amount payload
    then (append_transaction (deposit_entry oid a payload) (write_balance oid new_balance db),
          Returned new_balance)
    else (write_balance oid new_balance db, Raised (InternalError ValidationError)).
Proof.
  intros Hid Hacc Hq. destruct db as [accs txs out]. unfold quiet in Hq.
  simpl in *. subst out.
  unfold deposit, parse_id. rewrite Hid. cbn. unfold lookup_account. cbn.
  rewrite Hacc. cbn. unfold new_Transaction.
  destruct (0 <? dw_amount payload); reflexivity.
Qed.


Lemma run_transfer_quiet payload db oa ob a b :
  ObjectId (from_account_id payload) = Some oa ->
  ObjectId (tr_to_account_id payload) = Some ob ->
  db_account db !! oa = Some a ->
  db_account db !! ob = Some b ->
  quiet db ->
  run (transfer payload) db =
    let current := default 0 (balance a) in
    let amt := tr_amount payload in
    let written :=
      write_balance ob (default 0 (balance b) + amt) (write_balance oa (current - amt) db) in
    if negb (bool_decide (currency a = currency b)) then (db, Raised CurrencyMismatch)
    else if current <? amt then (db, Raised InsufficientFunds)
    else if 0 <? amt
    then (append_transaction (transfer_in_entry oa ob b payload)
            (append_transaction (transfer_out_entry oa ob a payload) written),
          Returned tt)
    else (written, Raised (InternalError ValidationError)).
Proof.
  intros Hfrom Hto Ha Hb Hq. destruct db as [accs txs out]. unfold quiet in Hq.
  simpl in *. subst out.
  unfold transfer, parse_id. rewrite Hfrom. cbn. unfold lookup_account. cbn.
  rewrite Ha. cbn. rewrite Hto. cbn. unfold lookup_account. cbn. rewrite Hb. cbn.
  destruct (negb (bool_decide (currency a = currency b))); [reflexivity|].
  unfold get_balance. cbn.
  destruct (default 0 (balance a) <? tr_amount payload); [reflexivity|].
  cbn. unfold new_Transaction.
  destruct (0 <? tr_amount payload); reflexivity.
Qed.

(** ** Deposit *)



(** C5.  A deposit whose amount is not strictly positive, on an existing
    account with balance [b] and a store that answers every call: the
    handler has already written [b + amount] as the balance when the ledger
    entry is refused by its [amount > 0] constraint; the refusal leaves the
    handler as a status 500 error, which is not an InvalidArgument failure,
    and no ledger entry is appended. *)
Theorem deposit_nonpositive_amount s payload db oid a :
  ObjectId s = Some oid ->
  db_account db !! oid = Some a ->
  quiet db ->
  dw_amount payload <= 0 ->
  let b := default 0 (balance a) in
  let db' := fst (run (deposit s payload) db) in
  snd (run (deposit s payload) db) = Raised (InternalError ValidationError) /\
  ~ is_InvalidArgument (InternalError ValidationError) /\
  balance_at db' oid = Some (b + dw_amount payload) /\
  db_transaction db' = db_transaction db.
Proof.
  intros Hid Hacc Hq Hle b db'. subst db'.
  rewrite (run_deposit_quiet s payload db oid a Hid Hacc Hq).
  apply Z.ltb_ge in Hle. cbv zeta. rewrite Hle. cbn [fst snd].
  repeat split.
  - intros (d & He & _). discriminate He.
  - by apply balance_at_write_eq with a.
Qed.

Lemma deposit_nonpositive_amount_witness :
  let db := sample_db (sample_account 100 "USD") (sample_account 50 "USD") [] in
  let payload := {| dw_amount := -30; dw_note := None |} in
  snd (run (deposit idA payload) db) = Raised (HTTPException 500 (StrOf ValidationError)) /\
  balance_at db idA = Some 100 /\
  balance_at (fst (run (deposit idA payload) db)) idA = Some 70 /\
  db_transaction (fst (run (deposit idA payload) db)) = [].
Proof.
  intros db payload.
  destruct (deposit_nonpositive_amount idA payload db idA (sample_account 100 "USD"))
    as (Hr & _ & Hb & Ht); [reflexivity | reflexivity | reflexivity | simpl; lia |].
  exact (conj Hr (conj eq_refl (conj Hb Ht))).
Defined.

(** ** Withdraw *)



(** ** Transfer *)

(** C6.  A transfer between two existing accounts whose currency fields
    differ, on a store that answers every call, fails with CurrencyMismatch
    and leaves the store as it was: both balances and the ledger are
    unchanged.  This holds for every amount. *)
Theorem transfer_currency_mismatch payload db oa ob a b :
  ObjectId (from_account_id payload) = Some oa ->
  ObjectId (tr_to_account_id payload) = Some ob ->
  db_account db !! oa = Some a ->
  db_account db !! ob = Some b ->
  currency a <> currency b ->
  quiet db ->
  let db' := fst (run (transfer payload) db) in
  snd (run (transfer payload) db) = Raised CurrencyMismatch /\
  balance_at db' oa = balance_at db oa /\
  balance_at db' ob = balance_at db ob /\
  db_transaction db' = db_transaction db /\
  db' = db.
Proof.
  intros Hfrom Hto Ha Hb Hcur Hq db'. subst db'.
  rewrite (run_transfer_quiet payload db oa ob a b Hfrom Hto Ha Hb Hq). cbv zeta.
  rewrite bool_decide_eq_false_2 by exact Hcur. cbn [negb fst snd].
  by repeat split.
Qed.

Lemma transfer_currency_mismatch_witness :
  let db := sample_db (sample_account 100 "USD") (sample_account 50 "EUR") [] in
  let payload := {| from_account_id := idA; tr_to_account_id := idB;
                    tr_amount := 30; tr_note := None |} in
  snd (run (transfer payload) db) = Raised CurrencyMismatch /\
  fst (run (transfer payload) db) = db.
Proof.
  intros db payload.
  destruct (transfer_currency_mismatch payload db idA idB
              (sample_account 100 "USD") (sample_account 50 "EUR"))
    as (Hr & _ & _ & _ & Hd);
    [reflexivity | reflexivity | reflexivity | reflexivity | discriminate | reflexivity |].
  exact (conj Hr Hd).
Defined.



(** ** Transfer when a store call raises *)




(** ** Two requests served concurrently: withdrawals *)

Lemma interleave_finished {A B : Type} sched (p1 : Prog A) (p2 : Prog B) db :
  finished p1 = true -> finished p2 = true ->
  interleave sched p1 p2 db = (db, (snd (run p1 db), snd (run p2 db))).
Proof.
  intros H1 H2. induction sched as [|first sched IH].
  - destruct p1; try discriminate H1; destruct p2; try discriminate H2; reflexivity.
  - simpl. rewrite H1, H2.
    destruct first; simpl;
      destruct p1; try discriminate H1; destruct p2; try discriminate H2; exact IH.
Qed.

(** Symbolic evaluation of store calls on a store whose account is known. *)
Ltac eval_store :=
  repeat (progress (cbn; unfold lookup_account; cbn);
          repeat match goal with
                 | Hacc : _ !! _ = Some _ |- _ => rewrite ?lookup_alter_eq, ?Hacc
                 end;
          change (100 - 60) with 40; change (40 <? 60) with true).

(** C10, as the code has it.  Two withdrawals of 60 from an account that
    holds 100, on a store that answers every call.  Served one after the
    other, the first succeeds with balance 40 and the second fails with
    InsufficientFunds; so it is in either serial order.  Served
    concurrently, whatever the order of their store calls, the final balance
    is 40 and either exactly one succeeds or both do; both succeed whenever
    the first two store calls served are the two balance reads, and then one
    of the two debits is lost: an outcome of no serial order. *)
Theorem withdrawals_interleaved s db oid a :
  ObjectId s = Some oid ->
  db_account db !! oid = Some a ->
  balance a = Some 100 ->
  quiet db ->
  let w := withdraw s withdraw60 in
  (snd (run w db) = Returned 40 /\
   snd (run w (fst (run w db))) = Raised InsufficientFunds /\
   balance_at (fst (run w (fst (run w db)))) oid = Some 40 /\
   snd (interleave [true; true; true] w w db) = (Returned 40, Raised InsufficientFunds) /\
   snd (interleave [false; false; false] w w db) = (Raised InsufficientFunds, Returned 40)) /\
  (forall sched,
     balance_at (fst (interleave sched w w db)) oid = Some 40 /\
     (exactly_one_succeeds (fst (snd (interleave sched w w db)))
                           (snd (snd (interleave sched w w db))) \/
      snd (interleave sched w w db) = (Returned 40, Returned 40))) /\
  (forall first rest,
     snd (interleave (first :: negb first :: rest) w w db) = (Returned 40, Returned 40) /\
     length (db_transaction (fst (interleave (first :: negb first :: rest) w w db)))
       = (length (db_transaction db) + 2)%nat).
Proof.
  intros Hid Hacc Hbal Hq w. subst w.
  destruct db as [accs txs out]. unfold quiet in Hq. simpl in Hacc, Hq. subst out.
  destruct a as [cid ty bal cur nick]. simpl in Hbal. subst bal.
  unfold withdraw, parse_id. rewrite Hid.
  assert (Hfin : forall m t,
            balance_at {| db_account := alter (set_balance 40) oid m;
                          db_transaction := t; outages := [] |} oid = Some 40 <->
            is_Some (m !! oid)).
  { intros m t. unfold balance_at, lookup_account. cbn. rewrite lookup_alter_eq.
    destruct (m !! oid); cbn; split; intros H; try done; by inversion H. }
  split; [|split].
  - eval_store. repeat split. apply Hfin. cbn. by rewrite Hacc.
  - intros sched.
    do 7 (try (destruct sched as [|[|] sched]); eval_store).
    all: rewrite ?interleave_finished by reflexivity; cbn.
    all: split;
      [ apply Hfin; cbn; rewrite ?lookup_alter_eq, ?Hacc; by eexists
      | unfold exactly_one_succeeds; auto ].
  - intros first rest. destruct first; eval_store.
    all: do 5 (try (destruct rest as [|[|] rest]); eval_store).
    all: rewrite ?interleave_finished by reflexivity; cbn.
    all: split; [reflexivity | rewrite !length_app; simpl; lia].
Qed.

Lemma withdrawals_interleaved_witness :
  let db := sample_db (sample_account 100 "USD") (sample_account 50 "USD") [] in
  let w := withdraw idA withdraw60 in
  snd (run w db) = Returned 40 /\
  snd (run w (fst (run w db))) = Raised InsufficientFunds /\
  balance_at (fst (interleave [false; true; true; false] w w db)) idA = Some 40.
Proof.
  intros db w.
  destruct (withdrawals_interleaved idA db idA (sample_account 100 "USD"))
    as ((Hr1 & Hr2 & _) & Hall & _);
    [reflexivity | reflexivity | reflexivity | reflexivity |].
  destruct (Hall [false; true; true; false]) as [Hb _].
  exact (conj Hr1 (conj Hr2 Hb)).
Defined.

(** C10, as stated, fails: the two reads are served first, then the rest.
    Both withdrawals of 60 see the balance 100 and both succeed; two ledger
    entries of 60 are appended and the final balance is 40. *)
Lemma concurrent_withdrawals_both_succeed :
  let db := sample_db (sample_account 100 "USD") (sample_account 50 "USD") [] in
  let w := withdraw idA withdraw60 in
  let out := interleave [true; false] w w db in
  balance_at db idA = Some 100 /\
  snd out = (Returned 40, Returned 40) /\
  balance_at (fst out) idA = Some 40 /\
  map amount (db_transaction (fst out)) = [60; 60] /\
  ~ exactly_one_succeeds (fst (snd out)) (snd (snd out)).
Proof.
  intros db w out.
  repeat (split; [vm_compute; reflexivity|]).
  intros [[_ H] | [H _]]; vm_compute in H; discriminate H.
Qed.

(** ** Outcomes of the handlers under any store behaviour *)

(** Case analysis along a handler, keeping what each case has learnt. *)
Ltac explore :=
  repeat first
    [ progress cbn
    | progress unfold write_balance, append_transaction, lookup_account
    | match goal with
      | |- context [next_call {| db_account := _; db_transaction := _; outages := ?o |}] =>
        is_var o; destruct o as [|[|] o]
      | |- context [@lookup _ _ (gmap string Account) _ ?i ?m] =>
        is_var m; let H := fresh "Hlook" in destruct (m !! i) eqn:H
      | |- context [bool_decide ?P] =>
        let H := fresh "Hdec" in destruct (bool_decide_reflect P) as [H|H]
      | |- context [?x <? ?y] =>
        let H := fresh "Hcmp" in destruct (Z.ltb_spec x y) as [H|H]
      end ].

(** Enter a handler on a store given by its three fields. *)
Ltac enter_handler :=
  unfold respond, serve, deposit, withdraw, transfer, parse_id,
    new_Transaction, get_balance, get_currency.

(** Whatever the request and whatever store calls raise, a handler ends in
    one of four ways: it returns (200), or raises an [HTTPException] with
    status 400, 404 or 500.  No other exception leaves a handler, and a
    deposit never answers 400. *)
Theorem handlers_answer_http r db :
  (respond r db = Some 200 \/ respond r db = Some 400 \/
   respond r db = Some 404 \/ respond r db = Some 500) /\
  (forall s p, r = Deposit s p -> respond r db <> Some 400).
Proof.
  destruct db as [accs txs out].
  destruct r as [s p | s p | p]; enter_handler.
  - destruct (ObjectId s) as [oid|]; explore; (split; [tauto | intros; discriminate]).
  - destruct (ObjectId s) as [oid|]; explore; (split; [tauto | intros; discriminate]).
  - destruct (ObjectId (from_account_id p)) as [oa|];
      destruct (ObjectId (tr_to_account_id p)) as [ob|]; explore;
      (split; [tauto | intros; discriminate]).
Qed.

(** A request that is answered 400 or 404 has changed neither an account
    nor the ledger, whatever store calls raise. *)
Theorem client_errors_leave_store r db :
  respond r db = Some 400 \/ respond r db = Some 404 ->
  db_account (serve r db) = db_account db /\
  db_transaction (serve r db) = db_transaction db.
Proof.
  destruct db as [accs txs out].
  destruct r as [s p | s p | p]; enter_handler.
  - destruct (ObjectId s) as [oid|]; explore;
      intros [H|H]; try discriminate H; by split.
  - destruct (ObjectId s) as [oid|]; explore;
      intros [H|H]; try discriminate H; by split.
  - destruct (ObjectId (from_account_id p)) as [oa|];
      destruct (ObjectId (tr_to_account_id p)) as [ob|]; explore;
      intros [H|H]; try discriminate H; by split.
Qed.

Lemma client_errors_leave_store_witness :
  let db := sample_db (sample_account 100 "USD") (sample_account 50 "EUR") [] in
  let r := Transfer {| from_account_id := idA; tr_to_account_id := idB;
                       tr_amount := 30; tr_note := None |} in
  respond r db = Some 400 /\
  db_account (serve r db) = db_account db /\
  db_transaction (serve r db) = db_transaction db.
Proof.
  intros db r.
  assert (H : respond r db = Some 400) by reflexivity.
  exact (conj H (client_errors_leave_store r db (or_introl H))).
Defined.




(** ** What no sequence of requests does *)

Lemma serve_ledger r db :
  exists new,
    db_transaction (serve r db) = (db_transaction db ++ new)%list /\
    Forall (fun t => 0 < amount t) new /\ (length new <= 2)%nat.
Proof.
  destruct db as [accs txs out].
  destruct r as [s p | s p | p]; enter_handler.
  - destruct (ObjectId s) as [oid|]; explore; eexists;
      (split; [first [symmetry; apply app_nil_r | reflexivity]
              | split; [repeat constructor; assumption | simpl; lia]]).
  - destruct (ObjectId s) as [oid|]; explore; eexists;
      (split; [first [symmetry; apply app_nil_r | reflexivity]
              | split; [repeat constructor; assumption | simpl; lia]]).
  - destruct (ObjectId (from_account_id p)) as [oa|];
      destruct (ObjectId (tr_to_account_id p)) as [ob|]; explore; eexists;
      (split; [first [symmetry; apply app_nil_r | reflexivity
                     | rewrite <- app_assoc; reflexivity]
              | split; [repeat constructor; assumption | simpl; lia]]).
Qed.

(** The ledger is append-only and holds only positive amounts: whatever the
    requests, their arguments and the store calls that raise, the ledger
    after a sequence of requests is the ledger before it followed by new
    entries, at most two per request, each with [amount > 0]. *)
Theorem ledger_is_append_only rs db :
  exists new,
    db_transaction (serve_all rs db) = (db_transaction db ++ new)%list /\
    Forall (fun t => 0 < amount t) new /\
    (length new <= 2 * length rs)%nat.
Proof.
  revert db. induction rs as [|r rs IH]; intros db; simpl serve_all.
  - exists []. rewrite app_nil_r. repeat split; [constructor | simpl; lia].
  - destruct (serve_ledger r db) as (n1 & H1 & F1 & L1).
    destruct (IH (serve r db)) as (n2 & H2 & F2 & L2).
    exists (n1 ++ n2)%list. rewrite H2, H1, <- app_assoc. repeat split.
    + apply Forall_app. by split.
    + rewrite length_app. simpl length. lia.
Qed.

(** Close a goal on lookups with the documents found along the way. *)
Ltac by_lookups :=
  simplify_eq;
  repeat match goal with
         | H : _ !! _ = _ |- _ => rewrite ?H; clear H
         end;
  reflexivity.

(** A request changes no account but those it names: a deposit or a
    withdrawal leaves every document other than the one denoted by its id
    as it was, a transfer every document other than its two. *)
Theorem requests_are_local r db j :
  ~ addresses r j ->
  db_account (serve r db) !! j = db_account db !! j.
Proof.
  destruct db as [accs txs out].
  destruct r as [s p | s p | p]; unfold addresses; enter_handler.
  - destruct (ObjectId s) as [oid|]; explore; intros Hj;
      rewrite ?lookup_alter_ne by congruence; by_lookups.
  - destruct (ObjectId s) as [oid|]; explore; intros Hj;
      rewrite ?lookup_alter_ne by congruence; by_lookups.
  - destruct (ObjectId (from_account_id p)) as [oa|];
      destruct (ObjectId (tr_to_account_id p)) as [ob|]; explore; intros Hj;
      rewrite ?lookup_alter_ne by (intros ->; apply Hj; auto); by_lookups.
Qed.

Lemma requests_are_local_witness :
  let db := sample_db (sample_account 100 "USD") (sample_account 50 "USD") [] in
  let r := Deposit idA {| dw_amount := 30; dw_note := None |} in
  db_account (serve r db) !! idB = db_account db !! idB.
Proof.
  intros db r. apply (requests_are_local r db idB). simpl. discriminate.
Defined.

(** ** Requests that are refused *)

(** An account id that is not the text of an [ObjectId] (24 hexadecimal
    digits) makes the request end with status 500, not 400 or 404, and
    nothing is written, whatever the store does. *)
Theorem malformed_id_is_internal_error r db :
  malformed r ->
  respond r db = Some 500 /\
  db_account (serve r db) = db_account db /\
  db_transaction (serve r db) = db_transaction db.
Proof.
  destruct db as [accs txs out].
  destruct r as [s p | s p | p]; unfold malformed; enter_handler.
  - intros ->. by cbn.
  - intros ->. by cbn.
  - destruct (ObjectId (from_account_id p)) as [oa|];
      destruct (ObjectId (tr_to_account_id p)) as [ob|]; explore;
      intros [H|H]; try discriminate H; by repeat split.
Qed.

Lemma malformed_id_is_internal_error_witness :
  let db := sample_db (sample_account 100 "USD") (sample_account 50 "USD") [] in
  let r := Withdraw "account-1" {| dw_amount := 10; dw_note := None |} in
  respond r db = Some 500 /\
  db_account (serve r db) = db_account db /\
  db_transaction (serve r db) = db_transaction db.
Proof.
  intros db r. apply (malformed_id_is_internal_error r db). reflexivity.
Defined.

(** A deposit or a withdrawal on a well-formed id that denotes no account,
    on a store that answers every call, fails with status 404 "Account not
    found" and leaves the store as it was, whatever the amount. *)
Theorem missing_account_is_not_found s p db oid :
  ObjectId s = Some oid ->
  db_account db !! oid = None ->
  quiet db ->
  run (deposit s p) db = (db, Raised NotFound_account) /\
  run (withdraw s p) db = (db, Raised NotFound_account).
Proof.
  intros Hid Hnone Hq. destruct db as [accs txs out]. unfold quiet in Hq.
  simpl in *. subst out.
  unfold deposit, withdraw, parse_id. rewrite Hid. cbn. unfold lookup_account. cbn.
  rewrite Hnone. by cbn.
Qed.

Lemma missing_account_is_not_found_witness :
  let db := sample_db (sample_account 100 "USD") (sample_account 50 "USD") [] in
  let p := {| dw_amount := 10; dw_note := None |} in
  let s := "cccccccccccccccccccccccc" in
  run (deposit s p) db = (db, Raised (HTTPException 404 (Text "Account not found"))) /\
  run (withdraw s p) db = (db, Raised (HTTPException 404 (Text "Account not found"))).
Proof.
  intros db p s.
  apply (missing_account_is_not_found s p db s); reflexivity.
Defined.

(** A transfer one of whose well-formed ids denotes no account, on a store
    that answers every call, fails with status 404 and leaves the store as
    it was.  The check comes before the currency and the funds checks, so
    this holds whatever the other account and the amount are. *)
Theorem transfer_missing_account_is_not_found p db oa ob :
  ObjectId (from_account_id p) = Some oa ->
  ObjectId (tr_to_account_id p) = Some ob ->
  db_account db !! oa = None \/ db_account db !! ob = None ->
  quiet db ->
  run (transfer p) db = (db, Raised NotFound_transfer).
Proof.
  intros Hfrom Hto Hnone Hq. destruct db as [accs txs out]. unfold quiet in Hq.
  simpl in *. subst out.
  unfold transfer, parse_id. rewrite Hfrom. cbn. rewrite Hto. cbn.
  unfold lookup_account. cbn.
  destruct (accs !! oa) as [a|], (accs !! ob) as [b|]; cbn; try reflexivity.
  by destruct Hnone.
Qed.

Lemma transfer_missing_account_is_not_found_witness :
  let db := sample_db (sample_account 100 "USD") (sample_account 50 "USD") [] in
  let p := {| from_account_id := idA; tr_to_account_id := "cccccccccccccccccccccccc";
              tr_amount := 1000; tr_note := None |} in
  run (transfer p) db =
    (db, Raised (HTTPException 404 (Text "Source or destination account not found"))).
Proof.
  intros db p.
  apply (transfer_missing_account_is_not_found p db idA "cccccccccccccccccccccccc");
    [reflexivity | reflexivity | right; reflexivity | reflexivity].
Defined.

(** A transfer of more than the source holds, between existing accounts of
    equal currency fields (the same account included) on a store that
    answers every call, fails with InsufficientFunds and leaves the store as
    it was. *)
Theorem transfer_insufficient_funds p db oa ob a b :
  ObjectId (from_account_id p) = Some oa ->
  ObjectId (tr_to_account_id p) = Some ob ->
  db_account db !! oa = Some a ->
  db_account db !! ob = Some b ->
  currency a = currency b ->
  quiet db ->
  default 0 (balance a) < tr_amount p ->
  run (transfer p) db = (db, Raised InsufficientFunds).
Proof.
  intros Hfrom Hto Ha Hb Hcur Hq Hlt.
  rewrite (run_transfer_quiet p db oa ob a b Hfrom Hto Ha Hb Hq). cbv zeta.
  rewrite bool_decide_eq_true_2 by exact Hcur. cbn [negb].
  apply Z.ltb_lt in Hlt. by rewrite Hlt.
Qed.

Lemma transfer_insufficient_funds_witness :
  let db := sample_db (sample_account 100 "USD") (sample_account 50 "USD") [] in
  let p := {| from_account_id := idB; tr_to_account_id := idA;
              tr_amount := 51; tr_note := None |} in
  run (transfer p) db = (db, Raised (HTTPException 400 (Text "Insufficient funds"))).
Proof.
  intros db p.
  apply (transfer_insufficient_funds p db idB idA
           (sample_account 50 "USD") (sample_account 100 "USD"));
    [reflexivity | reflexivity | reflexivity | reflexivity | reflexivity | reflexivity
    | simpl; lia].
Defined.

(** ** Amounts that are not strictly positive *)



(** ** Requests in sequence and in parallel *)




(** ** [to_str_id] *)

(** Converting twice is converting once. *)
Theorem to_str_id_idempotent (doc : gmap string Value) :
  to_str_id (to_str_id doc) = to_str_id doc.
Proof.
  destruct (decide (doc = ∅)) as [->|Hempty]; [reflexivity|].
  assert (Hdoc : forall d : gmap string Value, d <> ∅ ->
            to_str_id d = match d !! "_id" with
                          | Some (VObjectId oid) => <["_id" := VStr oid]> d
                          | _ => d
                          end).
  { intros d Hd. unfold to_str_id. by rewrite bool_decide_eq_false_2. }
  rewrite (Hdoc doc Hempty).
  destruct (doc !! "_id") as [[| | | |oid]|] eqn:Hid;
    try (by rewrite (Hdoc doc Hempty), Hid).
  rewrite Hdoc by apply insert_non_empty. by rewrite lookup_insert_eq.
Qed.

(** The converted document has the keys of the original and the same value
    under every key but [_id]; its [_id] is never an [ObjectId]: an
    [ObjectId] has become its text, any other value is kept. *)
Theorem to_str_id_touches_only_id (doc : gmap string Value) :
  dom (to_str_id doc) = dom doc /\
  (forall k, k <> "_id" -> to_str_id doc !! k = doc !! k) /\
  (forall oid, to_str_id doc !! "_id" <> Some (VObjectId oid)) /\
  (forall oid, doc !! "_id" = Some (VObjectId oid) ->
               to_str_id doc !! "_id" = Some (VStr oid)) /\
  (forall v, doc !! "_id" = Some v -> (forall oid, v <> VObjectId oid) ->
             to_str_id doc !! "_id" = Some v).
Proof.
  unfold to_str_id. destruct (decide (doc = ∅)) as [->|Hempty].
  - rewrite bool_decide_eq_true_2 by reflexivity. repeat split; try done.
  - rewrite bool_decide_eq_false_2 by exact Hempty.
    destruct (doc !! "_id") as [[| | | |oid]|] eqn:Hid; repeat split;
      try (intros; congruence).
    + apply dom_insert_lookup_L. by eexists.
    + intros k Hk. by rewrite lookup_insert_ne.
    + intros o. by rewrite lookup_insert_eq.
    + intros o [= <-]. by rewrite lookup_insert_eq.
Qed.

(** ** [create_account] *)

Lemma Account_model_valid c t bal cur nick payload :
  Account_model c t bal cur nick = Some payload ->
  balance payload = Some (default 0 bal) /\ 0 <= default 0 bal /\
  currency payload = Some (default "USD" cur) /\ default "USD" cur ∈ currencies /\
  account_type payload ∈ account_types /\ customer_id payload = c.
Proof.
  unfold Account_model. intros H.
  destruct (bool_decide_reflect (t ∈ account_types)) as [Ht|]; [|discriminate H].
  destruct (Z.leb_spec 0 (default 0 bal)) as [Hb|]; [|discriminate H].
  destruct (bool_decide_reflect (default "USD" cur ∈ currencies)) as [Hc|];
    [|discriminate H].
  injection H as <-. by repeat split.
Qed.

(** Creating an account from a payload accepted by the [Account] model keeps
    the store free of negative balances, whatever store calls raise; it
    touches neither the ledger nor any other account. *)
Theorem create_account_keeps_nonnegative c t bal cur nick payload new_id bank :
  Account_model c t bal cur nick = Some payload ->
  nonnegative (bank_db bank) ->
  let bank' := fst (create_account payload new_id bank) in
  nonnegative (bank_db bank') /\
  db_transaction (bank_db bank') = db_transaction (bank_db bank) /\
  (forall j, j <> new_id ->
     db_account (bank_db bank') !! j = db_account (bank_db bank) !! j).
Proof.
  intros Hmodel Hnn bank'. subst bank'.
  destruct (Account_model_valid _ _ _ _ _ _ Hmodel) as (Hbal & Hpos & _).
  destruct bank as [cs [accs txs out]]. unfold nonnegative in *. simpl in Hnn.
  unfold create_account.
  destruct (ObjectId (customer_id payload)) as [cid|]; [|by repeat split].
  destruct out as [|[|] out]; cbn; try by repeat split.
  - destruct (cs !! cid); cbn; [|by repeat split]. repeat split.
    + apply map_Forall_insert_2; [by rewrite Hbal | exact Hnn].
    + intros j Hj. by rewrite lookup_insert_ne.
  - destruct (cs !! cid); cbn; [|by repeat split].
    destruct out as [|[|] out]; cbn; try by repeat split.
    all: repeat split;
      [ apply map_Forall_insert_2; [by rewrite Hbal | exact Hnn]
      | intros j Hj; by rewrite lookup_insert_ne ].
Qed.

Lemma create_account_keeps_nonnegative_witness :
  let db := sample_db (sample_account 100 "USD") (sample_account 50 "USD") [] in
  let cust := {| full_name := "Ada"; email := "ada@example.org"; phone := None;
                 address := None; is_active := true |} in
  let bank := {| bank_customer := {[ "5f1d7f3e8b0c4a2d9e6f1a2b" := cust ]};
                 bank_db := db |} in
  let payload := sample_account 0 "GBP" in
  let new_id := "cccccccccccccccccccccccc" in
  let bank' := fst (create_account payload new_id bank) in
  snd (create_account payload new_id bank) = Returned new_id /\
  db_account (bank_db bank') !! new_id = Some payload /\
  nonnegative (bank_db bank') /\
  db_transaction (bank_db bank') = db_transaction (bank_db bank) /\
  db_account (bank_db bank') !! idA = db_account (bank_db bank) !! idA.
Proof.
  intros db cust bank payload new_id bank'.
  destruct (create_account_keeps_nonnegative
              "5f1d7f3e8b0c4a2d9e6f1a2b" "checking" None (Some "GBP") None
              payload new_id bank) as (Hn & Ht & Ho).
  - reflexivity.
  - unfold nonnegative, nonneg_accounts; simpl.
    apply map_Forall_insert_2; [simpl; lia|].
    apply map_Forall_insert_2; [simpl; lia|].
    apply map_Forall_empty.
  - refine (conj eq_refl (conj eq_refl (conj Hn (conj Ht (Ho idA _))))).
    discriminate.
Defined.

(** An account cannot be created for a customer the store does not have:
    with a well-formed customer id that denotes no customer and a store that
    answers every call, [create_account] fails with status 404 "Customer not
    found" and the store is as it was. *)
Theorem create_account_unknown_customer payload new_id bank cid :
  ObjectId (customer_id payload) = Some cid ->
  bank_customer bank !! cid = None ->
  quiet (bank_db bank) ->
  create_account payload new_id bank = (bank, Raised CustomerNotFound).
Proof.
  intros Hcid Hnone Hq. destruct bank as [cs [accs txs out]].
  unfold quiet in Hq. simpl in *. subst out.
  unfold create_account. rewrite Hcid. cbn. by rewrite Hnone.
Qed.

Lemma create_account_unknown_customer_witness :
  let db := sample_db (sample_account 100 "USD") (sample_account 50 "USD") [] in
  let bank := {| bank_customer := ∅; bank_db := db |} in
  create_account (sample_account 0 "USD") "cccccccccccccccccccccccc" bank =
    (bank, Raised (HTTPException 404 (Text "Customer not found"))).
Proof.
  intros db bank.
  apply (create_account_unknown_customer (sample_account 0 "USD")
           "cccccccccccccccccccccccc" bank "5f1d7f3e8b0c4a2d9e6f1a2b");
    reflexivity.
Defined.



(** * The handlers on binary64 numbers *)

(** ** Binary64 arithmetic *)

Lemma leb_zero (x : float) : PrimFloat.leb 0 x = sf_nonneg (Prim2SF x).
Proof.
  rewrite leb_spec. change (Prim2SF 0) with (S754_zero false).
  by destruct (Prim2SF x) as [[]|[]| |[] m e].
Qed.

Lemma ltb_zero (x : float) : PrimFloat.ltb 0 x = sf_positive (Prim2SF x).
Proof.
  rewrite ltb_spec. change (Prim2SF 0) with (S754_zero false).
  by destruct (Prim2SF x) as [[]|[]| |[] m e].
Qed.

Lemma ltb_infinity (x : float) :
  PrimFloat.ltb x infinity = true ->
  match Prim2SF x with
  | S754_nan | S754_infinity false => False
  | _ => True
  end.
Proof.
  rewrite ltb_spec. change (Prim2SF infinity) with (S754_infinity false).
  by destruct (Prim2SF x) as [[]|[]| |[] m e].
Qed.

Lemma SFcompare_refl_not_Lt f : SFcompare f f <> Some Lt.
Proof.
  destruct f as [[]|[]| |[] m e]; simpl; try discriminate;
    rewrite Z.compare_refl, Pos.compare_cont_refl; discriminate.
Qed.

Lemma ltb_irrefl (x : float) : PrimFloat.ltb x x = false.
Proof.
  rewrite ltb_spec. unfold SFltb.
  pose proof (SFcompare_refl_not_Lt (Prim2SF x)) as H.
  by destruct (SFcompare (Prim2SF x) (Prim2SF x)) as [[]|].
Qed.

Lemma SFcompare_antisym f g :
  SFcompare g f = CompOpp <$> SFcompare f g.
Proof.
  destruct f as [[]|[]| |[] m e], g as [[]|[]| |[] m' e']; simpl; try reflexivity.
  all: rewrite (Z.compare_antisym e e'); destruct (e ?= e') eqn:He; simpl; try reflexivity.
  all: rewrite (Pos.compare_cont_antisym m m' Eq); simpl;
    by destruct (Pos.compare_cont Eq m m').
Qed.

Lemma leb_not_gt (x y : float) : PrimFloat.leb x y = true -> PrimFloat.ltb y x = false.
Proof.
  rewrite leb_spec, ltb_spec. unfold SFleb, SFltb.
  rewrite (SFcompare_antisym (Prim2SF x) (Prim2SF y)).
  by destruct (SFcompare (Prim2SF x) (Prim2SF y)) as [[]|].
Qed.

Lemma iter_pos_invariant {A : Type} (P : A -> Prop) (f : A -> A) :
  (forall x, P x -> P (f x)) -> forall n x, P x -> P (SpecFloat.iter_pos f n x).
Proof.
  intros Hf. induction n as [n IH | n IH |]; intros x Hx; simpl; auto.
Qed.

Lemma shr_1_nonneg mrs : 0 <= shr_m mrs -> 0 <= shr_m (shr_1 mrs).
Proof. destruct mrs as [[|[p|p|]|p] r s]; simpl; lia. Qed.

Lemma shr_fexp_nonneg m e l :
  0 <= m -> 0 <= shr_m (fst (shr_fexp prec emax m e l)).
Proof.
  intros Hm. unfold shr_fexp, shr.
  assert (H0 : 0 <= shr_m (shr_record_of_loc m l)) by (by destruct l as [|[]]).
  destruct (fexp prec emax (Zdigits2 m + e) - e) as [|p|p]; simpl; try exact H0.
  by apply (iter_pos_invariant (fun x => 0 <= shr_m x)), H0; apply shr_1_nonneg.
Qed.

Lemma round_nearest_even_nonneg m l : 0 <= m -> 0 <= round_nearest_even m l.
Proof.
  intros Hm. destruct l as [|[]]; simpl; try lia. destruct (Z.even m); lia.
Qed.

Lemma binary_round_aux_nonneg m e l :
  0 <= m -> sf_nonneg (binary_round_aux prec emax false m e l) = true.
Proof.
  intros Hm. unfold binary_round_aux.
  pose proof (shr_fexp_nonneg m e l Hm) as H1.
  destruct (shr_fexp prec emax m e l) as [mrs' e'] eqn:E1. simpl in H1.
  pose proof (shr_fexp_nonneg _ e' loc_Exact
                (round_nearest_even_nonneg _ (loc_of_shr_record mrs') H1)) as H2.
  destruct (shr_fexp prec emax _ e' loc_Exact) as [mrs'' e''] eqn:E2. simpl in H2.
  destruct (shr_m mrs'') as [|p|p]; [reflexivity | | lia].
  by destruct (e'' <=? emax - prec).
Qed.

Lemma binary_normalize_nonneg m e :
  0 <= m -> sf_nonneg (binary_normalize prec emax m e false) = true.
Proof.
  intros Hm. destruct m as [|p|p]; [reflexivity | | lia].
  unfold binary_normalize, binary_round.
  destruct (shl_align p e _) as [mz ez]. by apply binary_round_aux_nonneg.
Qed.

(** The sum of a number [>= 0] and a number [> 0] is [>= 0] (it may be
    infinite). *)
Lemma add_nonneg (b a : float) :
  PrimFloat.leb 0 b = true -> PrimFloat.ltb 0 a = true ->
  PrimFloat.leb 0 (b + a) = true.
Proof.
  rewrite !leb_zero, ltb_zero, add_spec. unfold SF64add, SFadd.
  destruct (Prim2SF b) as [sb|[]| |[] mb eb], (Prim2SF a) as [sa|[]| |[] ma ea];
    try discriminate; try reflexivity; intros _ _.
  apply binary_normalize_nonneg. simpl. lia.
Qed.

Lemma digits2_pos_bounds (m : positive) :
  2 ^ (Z.pos (digits2_pos m) - 1) <= Z.pos m < 2 ^ Z.pos (digits2_pos m).
Proof.
  induction m as [m IH | m IH |]; simpl digits2_pos.
  - rewrite Pos2Z.inj_succ, Z.pow_succ_r by lia.
    replace (Z.succ (Z.pos (digits2_pos m)) - 1) with (Z.succ (Z.pos (digits2_pos m) - 1)) by lia.
    rewrite Z.pow_succ_r by lia. lia.
  - rewrite Pos2Z.inj_succ, Z.pow_succ_r by lia.
    replace (Z.succ (Z.pos (digits2_pos m)) - 1) with (Z.succ (Z.pos (digits2_pos m) - 1)) by lia.
    rewrite Z.pow_succ_r by lia. lia.
  - simpl. lia.
Qed.

Lemma iter_xO_doubles (m d : positive) : 2 * Z.pos m <= Z.pos (Pos.iter xO m d).
Proof.
  induction d as [|d IH] using Pos.peano_ind.
  - simpl. lia.
  - rewrite Pos.iter_succ. lia.
Qed.

Lemma shl_align_same m e : shl_align m e e = (m, e).
Proof. unfold shl_align. by rewrite Z.sub_diag. Qed.

(** What validity says of the mantissa of a binary64 number. *)
Lemma bounded_digits m e :
  bounded prec emax m e = true ->
  Z.pos (digits2_pos m) <= 53 /\ -1074 <= e /\
  (-1074 < e -> Z.pos (digits2_pos m) = 53).
Proof.
  unfold bounded, canonical_mantissa, fexp, emin, prec, emax.
  intros H. apply andb_prop in H as [H _]. apply Z.eqb_eq in H. lia.
Qed.

(** Subtracting a finite [a > 0] from [b >= 0] when [a > b] does not hold
    gives a number [>= 0]. *)
Lemma sub_nonneg (b a : float) :
  PrimFloat.leb 0 b = true -> PrimFloat.ltb 0 a = true ->
  PrimFloat.ltb a infinity = true -> PrimFloat.ltb b a = false ->
  PrimFloat.leb 0 (b - a) = true.
Proof.
  intros Hb Ha Hfin Hguard. apply ltb_infinity in Hfin.
  rewrite leb_zero in *. rewrite ltb_zero in Ha. rewrite ltb_spec in Hguard.
  rewrite sub_spec. unfold SF64sub, SFsub.
  pose proof (Prim2SF_valid b) as Vb. pose proof (Prim2SF_valid a) as Va.
  destruct (Prim2SF b) as [sb|[]| |[] mb eb], (Prim2SF a) as [sa|[]| |[] ma ea];
    try discriminate; try reflexivity; try contradiction.
  simpl in Vb, Va. apply bounded_digits in Vb as (_ & _ & Vb).
  apply bounded_digits in Va as (Va & Va' & _).
  apply binary_normalize_nonneg. unfold cond_Zopp.
  unfold SFltb, SFcompare in Hguard.
  destruct (eb ?= ea) eqn:He.
  - apply Z.compare_eq in He. subst ea. rewrite Z.min_id, !shl_align_same. simpl fst.
    destruct (Pos.compare_cont Eq mb ma) eqn:Hm; try discriminate Hguard.
    + apply Pos.compare_eq in Hm. subst. lia.
    + change (Pos.compare mb ma = Gt) in Hm. apply Pos.compare_gt_iff in Hm. lia.
  - discriminate Hguard.
  - apply Z.compare_gt_iff in He. rewrite Z.min_r by lia. rewrite shl_align_same.
    unfold shl_align. destruct (ea - eb) as [|d|d] eqn:Hd; try lia. simpl fst.
    pose proof (iter_xO_doubles mb d) as Hs.
    pose proof (digits2_pos_bounds mb) as Hmb. pose proof (digits2_pos_bounds ma) as Hma.
    rewrite Vb in Hmb by lia.
    assert (2 ^ Z.pos (digits2_pos ma) <= 2 ^ 53) by (apply Z.pow_le_mono_r; lia).
    change (2 ^ (53 - 1)) with 4503599627370496 in Hmb.
    change (2 ^ 53) with 9007199254740992 in *. lia.
Qed.

(** A zero plus a number [> 0] is that number. *)
Lemma zero_add (b a : float) :
  PrimFloat.eqb b 0 = true -> PrimFloat.ltb 0 a = true -> (b + a)%float = a.
Proof.
  rewrite FloatAxioms.eqb_spec, ltb_zero. change (Prim2SF 0) with (S754_zero false).
  intros Hb Ha. apply Prim2SF_inj. rewrite add_spec. unfold SF64add, SFadd.
  destruct (Prim2SF b) as [sb|[]| |[] mb eb], (Prim2SF a) as [sa|[]| |[] ma ea];
    try discriminate; reflexivity.
Qed.

(** A finite number [> 0] minus itself is zero. *)
Lemma sub_self (a : float) :
  PrimFloat.ltb 0 a = true -> PrimFloat.ltb a infinity = true -> (a - a)%float = 0%float.
Proof.
  rewrite ltb_zero. intros Ha Hfin. apply ltb_infinity in Hfin.
  apply Prim2SF_inj. rewrite sub_spec. change (Prim2SF 0) with (S754_zero false).
  unfold SF64sub, SFsub.
  destruct (Prim2SF a) as [sa|[]| |[] ma ea]; try discriminate; try contradiction.
  rewrite Z.min_id, shl_align_same. simpl fst. unfold cond_Zopp.
  by rewrite Z.sub_diag.
Qed.

(** ** The binary64 store *)

Lemma b64_balance_at_lookup db oid a :
  Binary64.db_account db !! oid = Some a ->
  Binary64.balance_at db oid = Some (default 0%float (Binary64.balance a)).
Proof. intros H. unfold Binary64.balance_at, Binary64.lookup_account. by rewrite H. Qed.

Lemma b64_balance_at_write_eq db oid a b :
  Binary64.db_account db !! oid = Some a ->
  Binary64.balance_at (Binary64.write_balance oid b db) oid = Some b.
Proof.
  intros H. unfold Binary64.balance_at, Binary64.lookup_account, Binary64.write_balance.
  simpl. by rewrite lookup_alter_eq, H.
Qed.

Lemma b64_balance_at_write_ne db oid j b :
  oid <> j ->
  Binary64.balance_at (Binary64.write_balance oid b db) j = Binary64.balance_at db j.
Proof.
  intros H. unfold Binary64.balance_at, Binary64.lookup_account, Binary64.write_balance.
  simpl. by rewrite lookup_alter_ne.
Qed.

Lemma b64_balance_at_append db tx j :
  Binary64.balance_at (Binary64.append_transaction tx db) j = Binary64.balance_at db j.
Proof. reflexivity. Qed.

Lemma b64_run_deposit_quiet s payload db oid a :
  ObjectId s = Some oid ->
  Binary64.db_account db !! oid = Some a ->
  Binary64.quiet db ->
  Binary64.run (Binary64.deposit s payload) db =
    let new_balance :=
      PrimFloat.add (default 0%float (Binary64.balance a)) (Binary64.dw_amount payload) in
    if PrimFloat.ltb 0 (Binary64.dw_amount payload)
    then (Binary64.append_transaction (Binary64.deposit_entry oid a payload)
            (Binary64.write_balance oid new_balance db),
          Returned new_balance)
    else (Binary64.write_balance oid new_balance db,
          Raised (InternalError ValidationError)).
Proof.
  intros Hid Hacc Hq. destruct db as [accs txs out]. unfold Binary64.quiet in Hq.
  simpl in *. subst out.
  unfold Binary64.deposit, Binary64.parse_id. rewrite Hid. cbn.
  unfold Binary64.lookup_account. cbn. rewrite Hacc. cbn.
  unfold Binary64.new_Transaction.
  destruct (PrimFloat.ltb 0 (Binary64.dw_amount payload)); reflexivity.
Qed.

Lemma b64_run_withdraw_quiet s payload db oid a :
  ObjectId s = Some oid ->
  Binary64.db_account db !! oid = Some a ->
  Binary64.quiet db ->
  Binary64.run (Binary64.withdraw s payload) db =
    let current := default 0%float (Binary64.balance a) in
    let new_balance := PrimFloat.sub current (Binary64.dw_amount payload) in
    if PrimFloat.ltb current (Binary64.dw_amount payload)
    then (db, Raised InsufficientFunds)
    else if PrimFloat.ltb 0 (Binary64.dw_amount payload)
    then (Binary64.append_transaction (Binary64.withdraw_entry oid a payload)
            (Binary64.write_balance oid new_balance db),
          Returned new_balance)
    else (Binary64.write_balance oid new_balance db,
          Raised (InternalError ValidationError)).
Proof.
  intros Hid Hacc Hq. destruct db as [accs txs out]. unfold Binary64.quiet in Hq.
  simpl in *. subst out.
  unfold Binary64.withdraw, Binary64.parse_id. rewrite Hid. cbn.
  unfold Binary64.lookup_account. cbn. rewrite Hacc. cbn.
  unfold Binary64.get_balance. cbn.
  destruct (PrimFloat.ltb (default 0%float (Binary64.balance a)) (Binary64.dw_amount payload));
    [reflexivity|].
  cbn. unfold Binary64.new_Transaction.
  destruct (PrimFloat.ltb 0 (Binary64.dw_amount payload)); reflexivity.
Qed.

Lemma b64_run_transfer_quiet payload db oa ob a b :
  ObjectId (Binary64.from_account_id payload) = Some oa ->
  ObjectId (Binary64.tr_to_account_id payload) = Some ob ->
  Binary64.db_account db !! oa = Some a ->
  Binary64.db_account db !! ob = Some b ->
  Binary64.quiet db ->
  Binary64.run (Binary64.transfer payload) db =
    let current := default 0%float (Binary64.balance a) in
    let amt := Binary64.tr_amount payload in
    let written :=
      Binary64.write_balance ob (PrimFloat.add (default 0%float (Binary64.balance b)) amt)
        (Binary64.write_balance oa (PrimFloat.sub current amt) db) in
    if negb (bool_decide (Binary64.currency a = Binary64.currency b))
    then (db, Raised CurrencyMismatch)
    else if PrimFloat.ltb current amt then (db, Raised InsufficientFunds)
    else if PrimFloat.ltb 0 amt
    then (Binary64.append_transaction (Binary64.transfer_in_entry oa ob b payload)
            (Binary64.append_transaction (Binary64.transfer_out_entry oa ob a payload)
               written),
          Returned tt)
    else (written, Raised (InternalError ValidationError)).
Proof.
  intros Hfrom Hto Ha Hb Hq. destruct db as [accs txs out]. unfold Binary64.quiet in Hq.
  simpl in *. subst out.
  unfold Binary64.transfer, Binary64.parse_id. rewrite Hfrom. cbn.
  unfold Binary64.lookup_account. cbn.
  rewrite Ha. cbn. rewrite Hto. cbn. unfold Binary64.lookup_account. cbn. rewrite Hb. cbn.
  destruct (negb (bool_decide (Binary64.currency a = Binary64.currency b))); [reflexivity|].
  unfold Binary64.get_balance. cbn.
  destruct (PrimFloat.ltb (default 0%float (Binary64.balance a)) (Binary64.tr_amount payload));
    [reflexivity|].
  cbn. unfold Binary64.new_Transaction.
  destruct (PrimFloat.ltb 0 (Binary64.tr_amount payload)); reflexivity.
Qed.

#[local] Set Warnings "-inexact-float".

(** ** Transfer on binary64 balances *)

(** C2, as the code has it.  A transfer of [amt] between two distinct
    existing accounts whose currency fields are equal, with [amt > 0] and
    [amt <= a0] as comparisons of floats, on a store that answers every
    call: the call succeeds, the source holds [a0 - amt] and the destination
    [b0 + amt], each the result of one binary64 operation, no other account
    changes, and exactly two ledger entries are appended: a transfer entry
    on the source that carries the destination id, then a deposit entry on
    the destination whose note names the source.  (That the two new
    balances add up to the old sum is not part of it: each is rounded on its
    own.) *)
Theorem transfer_moves_rounded_amount payload db oa ob a b :
  ObjectId (Binary64.from_account_id payload) = Some oa ->
  ObjectId (Binary64.tr_to_account_id payload) = Some ob ->
  oa <> ob ->
  Binary64.db_account db !! oa = Some a ->
  Binary64.db_account db !! ob = Some b ->
  Binary64.currency a = Binary64.currency b ->
  Binary64.quiet db ->
  PrimFloat.ltb 0 (Binary64.tr_amount payload) = true ->
  PrimFloat.leb (Binary64.tr_amount payload) (default 0%float (Binary64.balance a)) = true ->
  let a0 := default 0%float (Binary64.balance a) in
  let b0 := default 0%float (Binary64.balance b) in
  let amt := Binary64.tr_amount payload in
  let db' := fst (Binary64.run (Binary64.transfer payload) db) in
  snd (Binary64.run (Binary64.transfer payload) db) = Returned tt /\
  Binary64.balance_at db' oa = Some (PrimFloat.sub a0 amt) /\
  Binary64.balance_at db' ob = Some (PrimFloat.add b0 amt) /\
  (forall j, j <> oa -> j <> ob ->
     Binary64.db_account db' !! j = Binary64.db_account db !! j) /\
  exists t_out t_in,
    Binary64.db_transaction db' = (Binary64.db_transaction db ++ [t_out; t_in])%list /\
    Binary64.tx_type t_out = tx_transfer /\ Binary64.account_id t_out = oa /\
    Binary64.to_account_id t_out = Some ob /\ Binary64.amount t_out = amt /\
    Binary64.tx_type t_in = tx_deposit /\ Binary64.account_id t_in = ob /\
    Binary64.note t_in = Some (String.append "Transfer from " oa) /\
    Binary64.amount t_in = amt.
Proof.
  intros Hfrom Hto Hne Ha Hb Hcur Hq Hpos Hle a0 b0 amt db'. subst db'.
  rewrite (b64_run_transfer_quiet payload db oa ob a b Hfrom Hto Ha Hb Hq). cbv zeta.
  rewrite bool_decide_eq_true_2 by exact Hcur. cbn [negb].
  apply leb_not_gt in Hle. rewrite Hle, Hpos. cbn [fst snd].
  split; [reflexivity|]. split.
  { rewrite !b64_balance_at_append, b64_balance_at_write_ne by congruence.
    by apply b64_balance_at_write_eq with a. }
  split.
  { rewrite !b64_balance_at_append. apply b64_balance_at_write_eq with b.
    simpl. by rewrite lookup_alter_ne. }
  split.
  { intros j Hja Hjb. simpl. by rewrite !lookup_alter_ne. }
  exists (Binary64.transfer_out_entry oa ob a payload),
         (Binary64.transfer_in_entry oa ob b payload).
  split; [|by repeat split].
  simpl. by rewrite <- app_assoc.
Qed.

Lemma transfer_moves_rounded_amount_witness :
  let db := Binary64.sample_db (Binary64.sample_account 0.7 "USD")
              (Binary64.sample_account 0.1 "USD") [] in
  let payload := {| Binary64.from_account_id := idA; Binary64.tr_to_account_id := idB;
                    Binary64.tr_amount := 0.3%float; Binary64.tr_note := Some "rent" |} in
  let db' := fst (Binary64.run (Binary64.transfer payload) db) in
  snd (Binary64.run (Binary64.transfer payload) db) = Returned tt /\
  Binary64.balance_at db' idA = Some (0.7 - 0.3)%float /\
  Binary64.balance_at db' idB = Some (0.1 + 0.3)%float /\
  length (Binary64.db_transaction db') = 2%nat.
Proof.
  intros db payload db'.
  destruct (transfer_moves_rounded_amount payload db idA idB
              (Binary64.sample_account 0.7 "USD") (Binary64.sample_account 0.1 "USD"))
    as (Hr & Ha & Hb & _ & t1 & t2 & Ht & _);
    [reflexivity | reflexivity | discriminate | reflexivity | reflexivity
    | reflexivity | reflexivity | reflexivity | reflexivity |].
  refine (conj Hr (conj Ha (conj Hb _))).
  unfold db'. rewrite Ht. reflexivity.
Defined.

(** C2, as stated, fails: a transfer of 0.3 from an account holding 0.7 to
    one holding 0.1 succeeds, but the two new balances, [0.7 - 0.3] and
    [0.1 + 0.3], add up to 0.80000000000000004 while the old ones add up to
    0.79999999999999993: the sum of the two balances has changed. *)
Lemma transfer_sum_not_conserved :
  let db := Binary64.sample_db (Binary64.sample_account 0.7 "USD")
              (Binary64.sample_account 0.1 "USD") [] in
  let payload := {| Binary64.from_account_id := idA; Binary64.tr_to_account_id := idB;
                    Binary64.tr_amount := 0.3%float; Binary64.tr_note := None |} in
  let db' := fst (Binary64.run (Binary64.transfer payload) db) in
  PrimFloat.ltb 0 0.3 = true /\ PrimFloat.leb 0.3 0.7 = true /\
  snd (Binary64.run (Binary64.transfer payload) db) = Returned tt /\
  Binary64.balance_at db' idA = Some 0.39999999999999997%float /\
  Binary64.balance_at db' idB = Some 0.40000000000000002%float /\
  (0.39999999999999997 + 0.40000000000000002)%float = 0.80000000000000004%float /\
  (0.7 + 0.1)%float = 0.79999999999999993%float /\
  PrimFloat.eqb (0.39999999999999997 + 0.40000000000000002) (0.7 + 0.1) = false.
Proof.
  intros db payload db'. repeat split; vm_compute; reflexivity.
Qed.

(** ** Deposit then withdraw on binary64 balances *)

(** C9, as the code has it.  On an account whose balance is zero, a deposit
    of a finite [amt > 0] followed by a withdrawal of the same [amt] (store
    answering every call) both succeed, the first returns [amt], the second
    returns zero, the balance is zero again, and the ledger has grown by
    exactly two entries: the deposit, then the withdrawal. *)
Theorem deposit_then_withdraw_finite_restores_zero s amt n1 n2 db oid a :
  ObjectId s = Some oid ->
  Binary64.db_account db !! oid = Some a ->
  PrimFloat.eqb (default 0%float (Binary64.balance a)) 0 = true ->
  Binary64.quiet db ->
  Binary64.is_positive_finite amt ->
  let dep := {| Binary64.dw_amount := amt; Binary64.dw_note := n1 |} in
  let wd := {| Binary64.dw_amount := amt; Binary64.dw_note := n2 |} in
  let db1 := fst (Binary64.run (Binary64.deposit s dep) db) in
  let db2 := fst (Binary64.run (Binary64.withdraw s wd) db1) in
  snd (Binary64.run (Binary64.deposit s dep) db) = Returned amt /\
  snd (Binary64.run (Binary64.withdraw s wd) db1) = Returned 0%float /\
  Binary64.balance_at db2 oid = Some 0%float /\
  length (Binary64.db_transaction db2) = (length (Binary64.db_transaction db) + 2)%nat /\
  exists t1 t2,
    Binary64.db_transaction db2 = (Binary64.db_transaction db ++ [t1; t2])%list /\
    Binary64.tx_type t1 = tx_deposit /\ Binary64.tx_type t2 = tx_withdraw /\
    Binary64.account_id t1 = oid /\ Binary64.account_id t2 = oid /\
    Binary64.amount t1 = amt /\ Binary64.amount t2 = amt.
Proof.
  intros Hid Hacc Hzero Hq [Hpos Hfin] dep wd db1 db2.
  assert (Hrun1 : Binary64.run (Binary64.deposit s dep) db =
            (Binary64.append_transaction (Binary64.deposit_entry oid a dep)
               (Binary64.write_balance oid amt db), Returned amt)).
  { rewrite (b64_run_deposit_quiet s dep db oid a Hid Hacc Hq). cbv zeta.
    simpl Binary64.dw_amount. rewrite (zero_add _ amt Hzero Hpos), Hpos. reflexivity. }
  subst db2 db1. rewrite Hrun1. cbn [fst snd].
  set (db1 := Binary64.append_transaction _ _).
  assert (Hacc1 : Binary64.db_account db1 !! oid = Some (Binary64.set_balance amt a)).
  { subst db1. simpl. by rewrite lookup_alter_eq, Hacc. }
  assert (Hq1 : Binary64.quiet db1) by exact Hq.
  rewrite (b64_run_withdraw_quiet s wd db1 oid _ Hid Hacc1 Hq1). cbv zeta.
  simpl Binary64.balance. simpl default. simpl Binary64.dw_amount.
  rewrite ltb_irrefl, Hpos, (sub_self amt Hpos Hfin). cbn [fst snd].
  split; [reflexivity|]. split; [reflexivity|]. split.
  { rewrite b64_balance_at_append.
    by apply b64_balance_at_write_eq with (Binary64.set_balance amt a). }
  split.
  { simpl. rewrite !length_app. simpl. lia. }
  exists (Binary64.deposit_entry oid a dep),
         (Binary64.withdraw_entry oid (Binary64.set_balance amt a) wd).
  split; [|by repeat split].
  simpl. by rewrite <- app_assoc.
Qed.

Lemma deposit_then_withdraw_finite_restores_zero_witness :
  let db := Binary64.sample_db (Binary64.sample_account 0 "USD")
              (Binary64.sample_account 50 "USD") [] in
  let dep := {| Binary64.dw_amount := 0.1%float; Binary64.dw_note := None |} in
  let wd := {| Binary64.dw_amount := 0.1%float; Binary64.dw_note := Some "cash" |} in
  let db2 := fst (Binary64.run (Binary64.withdraw idA wd)
                    (fst (Binary64.run (Binary64.deposit idA dep) db))) in
  Binary64.balance_at db2 idA = Some 0%float /\
  length (Binary64.db_transaction db2) = 2%nat.
Proof.
  intros db dep wd db2.
  destruct (deposit_then_withdraw_finite_restores_zero idA 0.1%float None (Some "cash")
              db idA (Binary64.sample_account 0 "USD"))
    as (_ & _ & Hb & Hl & _);
    [reflexivity | reflexivity | reflexivity | reflexivity | split; reflexivity |].
  exact (conj Hb Hl).
Defined.

(** C9, as stated, fails: [amt = +inf] is strictly positive and passes the
    [amount > 0] constraint of the ledger entry.  On an account whose
    balance is zero the deposit leaves [+inf]; the withdrawal passes the
    funds check ([inf > inf] is false), writes [inf - inf], which is NaN,
    and returns it: the balance is not zero. *)
Lemma deposit_then_withdraw_infinity_leaves_nan :
  let db := Binary64.sample_db (Binary64.sample_account 0 "USD")
              (Binary64.sample_account 50 "USD") [] in
  let p := {| Binary64.dw_amount := infinity; Binary64.dw_note := None |} in
  let db1 := fst (Binary64.run (Binary64.deposit idA p) db) in
  let db2 := fst (Binary64.run (Binary64.withdraw idA p) db1) in
  PrimFloat.ltb 0 infinity = true /\
  Binary64.balance_at db idA = Some 0%float /\
  snd (Binary64.run (Binary64.deposit idA p) db) = Returned infinity /\
  snd (Binary64.run (Binary64.withdraw idA p) db1) = Returned nan /\
  Binary64.balance_at db2 idA = Some nan /\
  PrimFloat.eqb nan 0 = false /\
  length (Binary64.db_transaction db2) = 2%nat.
Proof.
  intros db p db1 db2. repeat split; vm_compute; reflexivity.
Qed.

(** ** Sequences of requests on binary64 balances *)

Lemma b64_last_cons_default {A : Type} (x d : A) (l : list A) :
  List.last (x :: l) d = List.last l x.
Proof.
  revert x d. induction l as [|y l IH]; intros x d; [reflexivity|].
  change (List.last (y :: l) d = List.last (y :: l) x). by rewrite !IH.
Qed.

Lemma b64_run_last_trace {A : Type} (p : Binary64.Prog A) (db : Binary64.Db) :
  fst (Binary64.run p db) = List.last (Binary64.trace p db) db.
Proof.
  revert db. induction p as [a | e | oid k IH | oid b k IH | tx k IH]; intros db;
    simpl; try reflexivity.
  all: destruct (Binary64.next_call db) as [f db0]; destruct f;
    rewrite b64_last_cons_default; apply IH.
Qed.

Lemma b64_nonneg_alter m oid v :
  Binary64.nonneg_accounts m -> Binary64.is_nonneg v ->
  Binary64.nonneg_accounts (alter (Binary64.set_balance v) oid m).
Proof.
  intros Hm Hv j x Hx. rewrite lookup_alter in Hx. case_decide.
  - destruct (m !! oid) as [y|]; simpl in Hx; [|discriminate Hx].
    injection Hx as <-. exact Hv.
  - by apply (Hm j).
Qed.

Lemma b64_nonneg_found m oid a :
  Binary64.nonneg_accounts m -> m !! oid = Some a ->
  PrimFloat.leb 0 (default 0%float (Binary64.balance a)) = true.
Proof. intros Hm Ha. by apply (Hm oid). Qed.

Lemma b64_nonnegative_last l db :
  Binary64.nonnegative db -> Forall Binary64.nonnegative l ->
  Binary64.nonnegative (List.last l db).
Proof.
  intros Hdb Hl. revert db Hdb. induction Hl as [|x l Hx Hl IH]; intros db Hdb.
  - exact Hdb.
  - rewrite b64_last_cons_default. by apply IH.
Qed.

(** Case analysis along a binary64 handler: the next outage flag, the
    document looked up, the guards; and the invariant on each store met. *)
Ltac b64_walk :=
  repeat first
    [ progress cbn
    | progress unfold Binary64.write_balance, Binary64.append_transaction,
        Binary64.lookup_account
    | match goal with
      | |- context [Binary64.next_call
                      {| Binary64.db_account := _; Binary64.db_transaction := _;
                         Binary64.outages := ?o |}] =>
        is_var o; destruct o as [|[|] o]
      | |- context [@lookup _ _ (gmap string Binary64.Account) _ ?i ?m] =>
        is_var m; let H := fresh "Hlook" in destruct (m !! i) eqn:H
      | |- context [bool_decide ?P] =>
        let H := fresh "Hdec" in destruct (bool_decide_reflect P) as [H|H]
      | |- context [PrimFloat.ltb ?x ?y] =>
        let H := fresh "Hcmp" in destruct (PrimFloat.ltb x y) eqn:H
      | |- Forall _ [] => constructor
      | |- Forall _ (_ :: _) => constructor
      | |- Binary64.nonnegative _ => unfold Binary64.nonnegative; cbn
      | |- Binary64.nonneg_accounts (alter _ _ _) => apply b64_nonneg_alter
      | |- Binary64.nonneg_accounts _ => assumption
      end ].

(** The balance a handler is about to write is [>= 0]. *)
Ltac b64_written :=
  unfold Binary64.is_nonneg;
  first
    [ congruence
    | apply add_nonneg; [ by eapply b64_nonneg_found | assumption ]
    | apply sub_nonneg; [ by eapply b64_nonneg_found | assumption | assumption | assumption ] ].

Lemma b64_deposit_trace_nonnegative s p db :
  Binary64.nonnegative db ->
  Binary64.is_positive_finite (Binary64.dw_amount p) ->
  Forall Binary64.nonnegative (Binary64.trace (Binary64.deposit s p) db).
Proof.
  intros Hdb [Hpos Hfin]. destruct db as [accs txs out].
  unfold Binary64.nonnegative in Hdb; simpl in Hdb.
  unfold Binary64.deposit, Binary64.parse_id.
  destruct (ObjectId s) as [oid|]; [|by constructor].
  unfold Binary64.new_Transaction, Binary64.get_balance.
  b64_walk; b64_written.
Qed.

Lemma b64_withdraw_trace_nonnegative s p db :
  Binary64.nonnegative db ->
  Binary64.is_positive_finite (Binary64.dw_amount p) ->
  Forall Binary64.nonnegative (Binary64.trace (Binary64.withdraw s p) db).
Proof.
  intros Hdb [Hpos Hfin]. destruct db as [accs txs out].
  unfold Binary64.nonnegative in Hdb; simpl in Hdb.
  unfold Binary64.withdraw, Binary64.parse_id.
  destruct (ObjectId s) as [oid|]; [|by constructor].
  unfold Binary64.new_Transaction, Binary64.get_balance.
  b64_walk; b64_written.
Qed.

Lemma b64_transfer_trace_nonnegative p db :
  Binary64.nonnegative db ->
  Binary64.is_positive_finite (Binary64.tr_amount p) ->
  Forall Binary64.nonnegative (Binary64.trace (Binary64.transfer p) db).
Proof.
  intros Hdb [Hpos Hfin]. destruct db as [accs txs out].
  unfold Binary64.nonnegative in Hdb; simpl in Hdb.
  unfold Binary64.transfer, Binary64.parse_id.
  destruct (ObjectId (Binary64.from_account_id p)) as [oa|]; [|by constructor].
  destruct (ObjectId (Binary64.tr_to_account_id p)) as [ob|].
  - unfold Binary64.new_Transaction, Binary64.get_balance.
    b64_walk; b64_written.
  - b64_walk.
Qed.

Lemma b64_serve_trace_nonnegative r db :
  Binary64.nonnegative db ->
  Binary64.is_positive_finite (Binary64.request_amount r) ->
  Forall Binary64.nonnegative (Binary64.serve_trace r db).
Proof.
  destruct r as [s p | s p | p]; simpl; intros Hdb Hpos.
  - by apply b64_deposit_trace_nonnegative.
  - by apply b64_withdraw_trace_nonnegative.
  - by apply b64_transfer_trace_nonnegative.
Qed.

Lemma b64_serve_last_trace r db :
  Binary64.serve r db = List.last (Binary64.serve_trace r db) db.
Proof. destruct r; apply b64_run_last_trace. Qed.

Lemma b64_history_nonnegative rs db :
  Binary64.nonnegative db ->
  Forall (fun r => Binary64.is_positive_finite (Binary64.request_amount r)) rs ->
  Forall Binary64.nonnegative (Binary64.history rs db) /\
  Binary64.nonnegative (Binary64.serve_all rs db).
Proof.
  intros Hdb Hrs. revert db Hdb.
  induction Hrs as [|r rs Hr Hrs IH]; intros db Hdb; simpl.
  - split; [constructor | exact Hdb].
  - pose proof (b64_serve_trace_nonnegative r db Hdb Hr) as Ht.
    assert (Hnext : Binary64.nonnegative (Binary64.serve r db)).
    { rewrite b64_serve_last_trace. by apply b64_nonnegative_last. }
    destruct (IH _ Hnext) as [Hh Hf]. split; [|exact Hf].
    apply Forall_app. by split.
Qed.

Lemma b64_nonnegative_balance_at db oid b :
  Binary64.nonnegative db -> Binary64.balance_at db oid = Some b -> Binary64.is_nonneg b.
Proof.
  unfold Binary64.nonnegative, Binary64.balance_at, Binary64.lookup_account.
  intros Hdb Hb.
  destruct (Binary64.db_account db !! oid) as [a|] eqn:Ha; simpl in Hb; [|discriminate Hb].
  injection Hb as <-. by apply (b64_nonneg_found _ _ _ Hdb Ha).
Qed.

(** C3, as the code has it.  Start from a store in which every balance is
    [>= 0] (as a comparison of floats, so none is NaN) and serve any
    sequence of deposits, withdrawals and transfers whose amounts are finite
    and strictly positive, on any accounts and whatever store calls raise
    (the other preconditions are checked by the handlers themselves).  Then
    every balance is [>= 0], at the end and after every single store call on
    the way, in particular between the debit and the credit of a
    transfer. *)
Theorem finite_amounts_keep_balances_nonnegative rs db :
  Binary64.nonnegative db ->
  Forall (fun r => Binary64.is_positive_finite (Binary64.request_amount r)) rs ->
  forall db', db' ∈ Binary64.history rs db \/ db' = Binary64.serve_all rs db ->
  forall oid b, Binary64.balance_at db' oid = Some b -> Binary64.is_nonneg b.
Proof.
  intros Hdb Hrs db' Hin oid b Hb.
  destruct (b64_history_nonnegative rs db Hdb Hrs) as [Hh Hf].
  apply (b64_nonnegative_balance_at db' oid b); [|exact Hb].
  destruct Hin as [Hin | ->]; [|exact Hf].
  rewrite Forall_forall in Hh. by apply Hh.
Qed.

Lemma finite_amounts_keep_balances_nonnegative_witness :
  let db := Binary64.sample_db (Binary64.sample_account 100 "USD")
              (Binary64.sample_account 50 "USD") [] in
  let rs :=
    [ Binary64.Withdraw idA {| Binary64.dw_amount := 100; Binary64.dw_note := None |};
      Binary64.Deposit idA {| Binary64.dw_amount := 0.1; Binary64.dw_note := None |};
      Binary64.Transfer {| Binary64.from_account_id := idB;
                           Binary64.tr_to_account_id := idA;
                           Binary64.tr_amount := 50; Binary64.tr_note := None |};
      Binary64.Withdraw idB {| Binary64.dw_amount := 1; Binary64.dw_note := None |} ] in
  Binary64.nonnegative db /\
  Forall (fun r => Binary64.is_positive_finite (Binary64.request_amount r)) rs /\
  Binary64.balance_at (Binary64.serve_all rs db) idA = Some (0.1 + 50)%float /\
  Binary64.balance_at (Binary64.serve_all rs db) idB = Some 0%float /\
  Binary64.is_nonneg (0.1 + 50)%float /\ Binary64.is_nonneg 0%float.
Proof.
  intros db rs.
  assert (Hdb : Binary64.nonnegative db).
  { unfold Binary64.nonnegative, Binary64.nonneg_accounts, db, Binary64.sample_db; simpl.
    apply map_Forall_insert_2; [reflexivity|].
    apply map_Forall_insert_2; [reflexivity|].
    apply map_Forall_empty. }
  assert (Hrs : Forall (fun r => Binary64.is_positive_finite (Binary64.request_amount r)) rs).
  { repeat constructor. }
  assert (HA : Binary64.balance_at (Binary64.serve_all rs db) idA = Some (0.1 + 50)%float)
    by (vm_compute; reflexivity).
  assert (HB : Binary64.balance_at (Binary64.serve_all rs db) idB = Some 0%float)
    by (vm_compute; reflexivity).
  refine (conj Hdb (conj Hrs (conj HA (conj HB (conj _ _))))).
  - exact (finite_amounts_keep_balances_nonnegative rs db Hdb Hrs _
             (or_intror eq_refl) idA _ HA).
  - exact (finite_amounts_keep_balances_nonnegative rs db Hdb Hrs _
             (or_intror eq_refl) idB _ HB).
Defined.

(** C3, as stated, fails: on an account holding 100, a deposit of [+inf]
    and then a withdrawal of [+inf] each meet their preconditions (the
    amount is [> 0]; at the withdrawal the balance is [+inf], which is
    [>= inf]).  Both succeed, and the withdrawal writes [inf - inf], which
    is NaN: the balance is not [>= 0]. *)
Lemma infinite_amount_breaks_nonnegative :
  let db := Binary64.sample_db (Binary64.sample_account 100 "USD")
              (Binary64.sample_account 50 "USD") [] in
  let p := {| Binary64.dw_amount := infinity; Binary64.dw_note := None |} in
  let db1 := fst (Binary64.run (Binary64.deposit idA p) db) in
  let db2 := Binary64.serve_all [Binary64.Deposit idA p; Binary64.Withdraw idA p] db in
  PrimFloat.leb 0 100 = true /\
  PrimFloat.ltb 0 infinity = true /\
  snd (Binary64.run (Binary64.deposit idA p) db) = Returned infinity /\
  Binary64.balance_at db1 idA = Some infinity /\
  PrimFloat.leb infinity infinity = true /\
  snd (Binary64.run (Binary64.withdraw idA p) db1) = Returned nan /\
  Binary64.balance_at db2 idA = Some nan /\
  PrimFloat.leb 0 nan = false.
Proof.
  intros db p db1 db2. repeat split; vm_compute; reflexivity.
Qed.

(** ** Outcomes on binary64 balances *)

Lemma b64_balance_at_altered accs txs out oid a v :
  accs !! oid = Some a ->
  Binary64.balance_at
    {| Binary64.db_account := alter (Binary64.set_balance v) oid accs;
       Binary64.db_transaction := txs; Binary64.outages := out |} oid = Some v.
Proof.
  intros H. unfold Binary64.balance_at, Binary64.lookup_account. cbn.
  by rewrite lookup_alter_eq, H.
Qed.

(** A withdrawal that returns has done all of its work, whatever store
    calls raise elsewhere: the id denotes an existing account, the amount
    passed [amount > 0], the funds check [amount > balance] was false, the
    returned value is the old balance minus the amount (one binary64
    subtraction) and is the stored balance, and the ledger has grown by
    exactly the withdraw entry. *)
Theorem withdraw_success_is_complete s p db v :
  snd (Binary64.run (Binary64.withdraw s p) db) = Returned v ->
  exists oid a,
    ObjectId s = Some oid /\ Binary64.db_account db !! oid = Some a /\
    PrimFloat.ltb 0 (Binary64.dw_amount p) = true /\
    PrimFloat.ltb (default 0%float (Binary64.balance a)) (Binary64.dw_amount p) = false /\
    v = PrimFloat.sub (default 0%float (Binary64.balance a)) (Binary64.dw_amount p) /\
    Binary64.balance_at (fst (Binary64.run (Binary64.withdraw s p) db)) oid = Some v /\
    Binary64.db_transaction (fst (Binary64.run (Binary64.withdraw s p) db)) =
      (Binary64.db_transaction db ++ [Binary64.withdraw_entry oid a p])%list.
Proof.
  destruct db as [accs txs out].
  unfold Binary64.withdraw, Binary64.parse_id, Binary64.new_Transaction,
    Binary64.get_balance, Binary64.get_currency.
  destruct (ObjectId s) as [oid|] eqn:Hid; b64_walk; intros [= <-].
  all: match goal with
       | Ha : _ !! ?i = Some ?a |- _ => exists i, a; repeat split; try done
       end.
  all: by eapply b64_balance_at_altered.
Qed.

Lemma withdraw_success_is_complete_witness :
  let db := Binary64.sample_db (Binary64.sample_account nan "USD")
              (Binary64.sample_account 50 "USD") [] in
  let p := {| Binary64.dw_amount := 10; Binary64.dw_note := None |} in
  snd (Binary64.run (Binary64.withdraw idA p) db) = Returned nan /\
  exists oid a,
    ObjectId idA = Some oid /\ Binary64.db_account db !! oid = Some a /\
    PrimFloat.ltb 0 (Binary64.dw_amount p) = true /\
    PrimFloat.ltb (default 0%float (Binary64.balance a)) (Binary64.dw_amount p) = false /\
    nan = PrimFloat.sub (default 0%float (Binary64.balance a)) (Binary64.dw_amount p) /\
    Binary64.balance_at (fst (Binary64.run (Binary64.withdraw idA p) db)) oid = Some nan /\
    Binary64.db_transaction (fst (Binary64.run (Binary64.withdraw idA p) db)) =
      (Binary64.db_transaction db ++ [Binary64.withdraw_entry oid a p])%list.
Proof.
  intros db p.
  assert (H : snd (Binary64.run (Binary64.withdraw idA p) db) = Returned nan)
    by reflexivity.
  exact (conj H (withdraw_success_is_complete idA p db nan H)).
Defined.

(** A transfer that returns has applied all four sub-effects, whatever
    store calls raise elsewhere: both accounts exist with equal currency
    fields, the amount passed [amount > 0], the funds check
    [amount > source balance] was false, the destination holds its old
    balance plus the amount, the source (when it is another account) its old
    balance minus the amount, and the ledger has grown by exactly the
    transfer entry and the deposit entry. *)
Theorem transfer_success_is_complete p db :
  snd (Binary64.run (Binary64.transfer p) db) = Returned tt ->
  exists oa ob a b,
    ObjectId (Binary64.from_account_id p) = Some oa /\
    ObjectId (Binary64.tr_to_account_id p) = Some ob /\
    Binary64.db_account db !! oa = Some a /\ Binary64.db_account db !! ob = Some b /\
    Binary64.currency a = Binary64.currency b /\
    PrimFloat.ltb 0 (Binary64.tr_amount p) = true /\
    PrimFloat.ltb (default 0%float (Binary64.balance a)) (Binary64.tr_amount p) = false /\
    Binary64.balance_at (fst (Binary64.run (Binary64.transfer p) db)) ob =
      Some (PrimFloat.add (default 0%float (Binary64.balance b)) (Binary64.tr_amount p)) /\
    (oa <> ob ->
       Binary64.balance_at (fst (Binary64.run (Binary64.transfer p) db)) oa =
         Some (PrimFloat.sub (default 0%float (Binary64.balance a)) (Binary64.tr_amount p))) /\
    Binary64.db_transaction (fst (Binary64.run (Binary64.transfer p) db)) =
      (Binary64.db_transaction db ++
         [Binary64.transfer_out_entry oa ob a p; Binary64.transfer_in_entry oa ob b p])%list.
Proof.
  destruct db as [accs txs out].
  unfold Binary64.transfer, Binary64.parse_id, Binary64.new_Transaction,
    Binary64.get_balance, Binary64.get_currency.
  destruct (ObjectId (Binary64.from_account_id p)) as [oa|] eqn:Hfrom;
    destruct (ObjectId (Binary64.tr_to_account_id p)) as [ob|] eqn:Hto;
    b64_walk; intros [= ];
    match goal with
    | Ha : _ !! oa = Some ?a, Hb : _ !! ob = Some ?b |- _ =>
      exists oa, ob, a, b; repeat split; try done;
      [ unfold Binary64.balance_at, Binary64.lookup_account; cbn;
        rewrite lookup_alter_eq;
        destruct (decide (oa = ob)) as [->|Hne];
        [ by rewrite lookup_alter_eq, Hb | by rewrite lookup_alter_ne, Hb ]
      | intros Hne; unfold Binary64.balance_at, Binary64.lookup_account; cbn;
        rewrite lookup_alter_ne by congruence; by rewrite lookup_alter_eq, Ha
      | by rewrite <- app_assoc ]
    end.
Qed.

Lemma transfer_success_is_complete_witness :
  let db := Binary64.sample_db (Binary64.sample_account nan "USD")
              (Binary64.sample_account 50 "USD") [] in
  let p := {| Binary64.from_account_id := idA; Binary64.tr_to_account_id := idB;
              Binary64.tr_amount := 10; Binary64.tr_note := None |} in
  snd (Binary64.run (Binary64.transfer p) db) = Returned tt /\
  exists oa ob a b,
    ObjectId (Binary64.from_account_id p) = Some oa /\
    ObjectId (Binary64.tr_to_account_id p) = Some ob /\
    Binary64.db_account db !! oa = Some a /\ Binary64.db_account db !! ob = Some b /\
    Binary64.currency a = Binary64.currency b /\
    PrimFloat.ltb 0 (Binary64.tr_amount p) = true /\
    PrimFloat.ltb (default 0%float (Binary64.balance a)) (Binary64.tr_amount p) = false /\
    Binary64.balance_at (fst (Binary64.run (Binary64.transfer p) db)) ob =
      Some (PrimFloat.add (default 0%float (Binary64.balance b)) (Binary64.tr_amount p)) /\
    (oa <> ob ->
       Binary64.balance_at (fst (Binary64.run (Binary64.transfer p) db)) oa =
         Some (PrimFloat.sub (default 0%float (Binary64.balance a)) (Binary64.tr_amount p))) /\
    Binary64.db_transaction (fst (Binary64.run (Binary64.transfer p) db)) =
      (Binary64.db_transaction db ++
         [Binary64.transfer_out_entry oa ob a p; Binary64.transfer_in_entry oa ob b p])%list.
Proof.
  intros db p.
  assert (H : snd (Binary64.run (Binary64.transfer p) db) = Returned tt) by reflexivity.
  exact (conj H (transfer_success_is_complete p db H)).
Defined.

(** ** Withdrawals whose amount is not strictly positive, on binary64 *)

(** A withdrawal whose amount does not pass [amount > 0] (zero, negative or
    NaN) and for which the funds check [amount > balance] is false, on an
    existing account with balance [b] and a store that answers every call:
    the handler writes [b - amount] (one binary64 subtraction) before the
    ledger entry is refused; the call ends with status 500 and no ledger
    entry, and the written balance stays. *)
Theorem withdraw_nonpositive_amount s p db oid a :
  ObjectId s = Some oid ->
  Binary64.db_account db !! oid = Some a ->
  Binary64.quiet db ->
  PrimFloat.ltb 0 (Binary64.dw_amount p) = false ->
  PrimFloat.ltb (default 0%float (Binary64.balance a)) (Binary64.dw_amount p) = false ->
  let b := default 0%float (Binary64.balance a) in
  let db' := fst (Binary64.run (Binary64.withdraw s p) db) in
  snd (Binary64.run (Binary64.withdraw s p) db) = Raised (InternalError ValidationError) /\
  Binary64.balance_at db' oid = Some (PrimFloat.sub b (Binary64.dw_amount p)) /\
  Binary64.db_transaction db' = Binary64.db_transaction db.
Proof.
  intros Hid Hacc Hq Hle Hb b db'. subst db' b.
  rewrite (b64_run_withdraw_quiet s p db oid a Hid Hacc Hq). cbv zeta.
  rewrite Hb, Hle. cbn [fst snd].
  repeat split. by apply b64_balance_at_write_eq with a.
Qed.

Lemma withdraw_nonpositive_amount_witness :
  let db := Binary64.sample_db (Binary64.sample_account 100 "USD")
              (Binary64.sample_account 50 "USD") [] in
  let p := {| Binary64.dw_amount := nan; Binary64.dw_note := None |} in
  snd (Binary64.run (Binary64.withdraw idA p) db)
    = Raised (HTTPException 500 (StrOf ValidationError)) /\
  Binary64.balance_at (fst (Binary64.run (Binary64.withdraw idA p) db)) idA = Some nan /\
  Binary64.db_transaction (fst (Binary64.run (Binary64.withdraw idA p) db)) = [].
Proof.
  intros db p.
  apply (withdraw_nonpositive_amount idA p db idA (Binary64.sample_account 100 "USD"));
    reflexivity.
Defined.
